(** * The Ark Forensic Platform: SSH tunnel manager

    A shallow embedding of [src/tools/ark_tunnel.py] (class [ArkTunnel]) and
    the properties of its tunnel supervision that the specification states.

    The Python methods are written in a small state-and-exception monad.
    Everything the program does to the outside world (spawning [ssh],
    sampling a process, sleeping, printing, HTTP requests) is recorded as an
    [event] in a chronological trace; what the outside world answers is read
    from an environment [Env], indexed by the position in the trace at which
    the call is made. *)

From Stdlib Require Import List ZArith String Ascii Bool Lia DecimalString.
Import ListNotations.

Local Open Scope string_scope.
Local Open Scope Z_scope.

(** ** Python values *)

(** A [subprocess.Popen] object is identified by the order of its creation. *)
Definition pid := nat.

Inductive exn_class :=
| KeyboardInterrupt | SystemExit
| TimeoutExpired | OSError | IndexError | KeyError | ValueError | TypeError
| AttributeError | UnicodeDecodeError | JSONDecodeError | URLError
| OtherException.

(** An exception: its class and [str(e)]. *)
Record exn := mk_exn { exn_cls : exn_class; exn_str : string }.

(** [isinstance(e, Exception)]: every class but the two that derive from
    [BaseException] directly. *)
Definition isinstance_Exception (e : exn) : bool :=
  match exn_cls e with
  | KeyboardInterrupt | SystemExit => false
  | _ => true
  end.

Definition isinstance_KeyboardInterrupt (e : exn) : bool :=
  match exn_cls e with KeyboardInterrupt => true | _ => false end.

Definition isinstance_TimeoutExpired (e : exn) : bool :=
  match exn_cls e with TimeoutExpired => true | _ => false end.

(** The value [json.loads] returns. *)
#[local] Set Warnings "-register-all".
Inductive json :=
| JNone
| JBool (b : bool)
| JInt (z : Z)
| JFloat (r : string)
| JStr (s : string)
| JList (l : list json)
| JDict (kv : list (string * json)).

(** The object [urllib.request.urlopen] returns: its status code and what
    [read()] will give. *)
Record response := mk_response { getcode : Z; read : exn + string }.

(** ** Strings *)

(** [str(n)] for an [int]. *)
Definition str_of_Z (z : Z) : string := NilZero.string_of_int (Z.to_int z).

Definition str_of_nat (n : nat) : string := str_of_Z (Z.of_nat n).

(** [s * n]. *)
Fixpoint str_repeat (s : string) (n : nat) : string :=
  match n with
  | O => EmptyString
  | S n' => s ++ str_repeat s n'
  end.

Definition nl : string := String (ascii_of_nat 10) EmptyString.

(** Python strings are kept as their UTF-8 bytes; [len] of a [str] counts
    code points, that is the bytes that are not continuation bytes. *)
Fixpoint len_str (s : string) : nat :=
  match s with
  | EmptyString => O
  | String c s' =>
      let n := nat_of_ascii c in
      if andb (Nat.leb 128 n) (Nat.ltb n 192) then len_str s' else S (len_str s')
  end.

Definition type_name (v : json) : string :=
  match v with
  | JNone => "NoneType"
  | JBool _ => "bool"
  | JInt _ => "int"
  | JFloat _ => "float"
  | JStr _ => "str"
  | JList _ => "list"
  | JDict _ => "dict"
  end.

Fixpoint assoc_str (k : string) (kv : list (string * json)) : option json :=
  match kv with
  | [] => None
  | (k', v) :: rest => if String.eqb k k' then Some v else assoc_str k rest
  end.

(** [data.get(key, default)]. *)
Definition json_get (data : json) (key : string) (default : json) : exn + json :=
  match data with
  | JDict kv =>
      inr (match assoc_str key kv with Some v => v | None => default end)
  | _ =>
      inl (mk_exn AttributeError
             ("'" ++ type_name data ++ "' object has no attribute 'get'"))
  end.

(** [len(v)]. *)
Definition py_len (v : json) : exn + nat :=
  match v with
  | JStr s => inr (len_str s)
  | JList l => inr (List.length l)
  | JDict kv => inr (List.length kv)
  | _ =>
      inl (mk_exn TypeError
             ("object of type '" ++ type_name v ++ "' has no len()"))
  end.

(** ** The object and the outside world *)

(** One entry of [self.services]. *)
Record service := mk_service { remote : Z; name : string; url : string }.

Record ArkTunnel := mk_ArkTunnel {
  tunnels : list pid;
  processes : list pid;
  running : bool;
  host : string;
  ssh_port : string;
  user : string;
  (** a [dict], in insertion order *)
  services : list (Z * service)
}.

(** [ArkTunnel.__init__]. *)
Definition ArkTunnel_init : ArkTunnel :=
  {| tunnels := [];
     processes := [];
     running := false;
     host := "153.204.80.81";
     ssh_port := "51414";
     user := "root";
     services :=
       [ (8080, mk_service 8080 "Frontend (The Ark UI)" "http://localhost:8080");
         (8001, mk_service 8001 "Backend API" "http://localhost:8001");
         (8434, mk_service 8434 "Ollama AI API" "http://localhost:8434/api/tags") ] |}.

(** What the program does to the outside world, call by call. *)
Inductive event :=
| Print (s : string)
| Sleep (secs : Z)
| Run (argv : list string) (timeout : Z)
| Spawn (argv : list string)
| Poll (p : pid)
| Communicate (p : pid)
| Terminate (p : pid)
| Wait (p : pid) (timeout : Z)
| Kill (p : pid)
| UrlOpen (u : string) (timeout : Z)
| Read (u : string).

(** What the outside world answers. The first argument of a call is the
    number of events that precede it; [inl e] means that the call raises [e].
    [env_decode], [env_json_loads] and [env_repr] are the library functions
    [bytes.decode], [json.loads] and [repr] (for lists and dicts). *)
Record Env := mk_Env {
  env_run : nat -> list string -> Z -> exn + Z;
  env_Popen : nat -> list string -> option exn;
  env_poll : nat -> pid -> exn + option Z;
  env_communicate : nat -> pid -> exn + (string * string);
  env_terminate : nat -> pid -> option exn;
  env_wait : nat -> pid -> Z -> exn + Z;
  env_kill : nat -> pid -> option exn;
  env_urlopen : nat -> string -> Z -> exn + response;
  env_decode : string -> exn + string;
  env_json_loads : string -> exn + json;
  env_repr : json -> string
}.

Record State := mk_State {
  self : ArkTunnel;
  trace : list event;
  next_pid : pid
}.

(** ** The monad *)

(** A call returns, raises, or is cut off by the bound on loop iterations. *)
Inductive outcome (A : Type) :=
| Ret (a : A)
| Raise (e : exn)
| Cutoff.

Arguments Ret {A} a.
Arguments Raise {A} e.
Arguments Cutoff {A}.

Definition M (A : Type) : Type := State -> outcome A * State.

Definition ret {A} (a : A) : M A := fun s => (Ret a, s).

Definition raise {A} (e : exn) : M A := fun s => (Raise e, s).

Definition cutoff {A} : M A := fun s => (Cutoff, s).

Definition bind {A B} (c : M A) (k : A -> M B) : M B :=
  fun s =>
    match c s with
    | (Ret a, s') => k a s'
    | (Raise e, s') => (Raise e, s')
    | (Cutoff, s') => (Cutoff, s')
    end.

Notation "x <- c ;; k" := (bind c (fun x => k))
  (at level 61, c at next level, right associativity).
Notation "c ;; k" := (bind c (fun _ => k))
  (at level 61, right associativity).

(** [try: body / except ...]: [handler e] is [None] when no clause matches
    [e]. The state reached when [e] was raised is kept. *)
Definition try_except {A} (body : M A) (handler : exn -> option (M A)) : M A :=
  fun s =>
    match body s with
    | (Raise e, s') =>
        match handler e with
        | Some h => h s'
        | None => (Raise e, s')
        end
    | r => r
    end.

(** The single clause [except Exception as e]. *)
Definition except_Exception {A} (h : exn -> M A) (e : exn) : option (M A) :=
  if isinstance_Exception e then Some (h e) else None.

Definition lift {A} (r : exn + A) : M A :=
  match r with
  | inl e => raise e
  | inr a => ret a
  end.

Definition get_self : M ArkTunnel := fun s => (Ret (self s), s).

Definition set_self (a : ArkTunnel) : M unit :=
  fun s => (Ret tt, mk_State a (trace s) (next_pid s)).

Definition emit (ev : event) : M unit :=
  fun s => (Ret tt, mk_State (self s) (trace s ++ [ev]) (next_pid s)).

(** A call to the outside world: the event is recorded, the answer is the
    environment's at this position of the trace. *)
Definition call {A} (ev : event) (answer : nat -> exn + A) : M A :=
  fun s =>
    let s' := mk_State (self s) (trace s ++ [ev]) (next_pid s) in
    match answer (List.length (trace s)) with
    | inl e => (Raise e, s')
    | inr a => (Ret a, s')
    end.

Definition opt_exn (o : option exn) : exn + unit :=
  match o with
  | Some e => inl e
  | None => inr tt
  end.

Definition print (s : string) : M unit := emit (Print s).

Definition sleep (secs : Z) : M unit := emit (Sleep secs).

(** ** Field updates and list operations *)

Definition set_processes (a : ArkTunnel) (ps : list pid) : ArkTunnel :=
  mk_ArkTunnel (tunnels a) ps (running a) (host a) (ssh_port a) (user a)
               (services a).

Definition set_running (a : ArkTunnel) (b : bool) : ArkTunnel :=
  mk_ArkTunnel (tunnels a) (processes a) b (host a) (ssh_port a) (user a)
               (services a).

(** [l.remove(x)]: the first occurrence, [None] when there is none. *)
Fixpoint list_remove (x : pid) (l : list pid) : option (list pid) :=
  match l with
  | [] => None
  | y :: l' =>
      if Nat.eqb y x then Some l'
      else match list_remove x l' with
           | Some r => Some (y :: r)
           | None => None
           end
  end.

Fixpoint dict_lookup (k : Z) (d : list (Z * service)) : option service :=
  match d with
  | [] => None
  | (k', v) :: rest => if Z.eqb k' k then Some v else dict_lookup k rest
  end.

Definition keys (d : list (Z * service)) : list Z := map fst d.

(** [self.processes.append(process)]. *)
Definition processes_append (process : pid) : M unit :=
  a <- get_self ;;
  set_self (set_processes a (processes a ++ [process])).

(** [self.processes.remove(process)]. *)
Definition processes_remove (process : pid) : M unit :=
  a <- get_self ;;
  match list_remove process (processes a) with
  | Some ps => set_self (set_processes a ps)
  | None => raise (mk_exn ValueError "list.remove(x): x not in list")
  end.

(** [list(self.services.keys())[i]]. *)
Definition services_key_at (i : nat) : M Z :=
  a <- get_self ;;
  match nth_error (keys (services a)) i with
  | Some k => ret k
  | None => raise (mk_exn IndexError "list index out of range")
  end.

(** [self.services[local_port]]. *)
Definition services_at (local_port : Z) : M service :=
  a <- get_self ;;
  match dict_lookup local_port (services a) with
  | Some c => ret c
  | None => raise (mk_exn KeyError (str_of_Z local_port))
  end.

(** ** The methods of [ArkTunnel] *)

Section Methods.

Variable E : Env.

(** *** Calls to the outside world *)

Definition subprocess_run (argv : list string) (timeout : Z) : M Z :=
  call (Run argv timeout) (fun t => env_run E t argv timeout).

(** [subprocess.Popen(cmd, ...)]: a new process object when the spawn works. *)
Definition Popen (argv : list string) : M pid :=
  call (Spawn argv) (fun t => opt_exn (env_Popen E t argv)) ;;
  fun s => (Ret (next_pid s), mk_State (self s) (trace s) (S (next_pid s))).

Definition poll (p : pid) : M (option Z) :=
  call (Poll p) (fun t => env_poll E t p).

Definition communicate (p : pid) : M (string * string) :=
  call (Communicate p) (fun t => env_communicate E t p).

Definition terminate (p : pid) : M unit :=
  call (Terminate p) (fun t => opt_exn (env_terminate E t p)).

Definition wait (p : pid) (timeout : Z) : M Z :=
  call (Wait p timeout) (fun t => env_wait E t p timeout).

Definition kill (p : pid) : M unit :=
  call (Kill p) (fun t => opt_exn (env_kill E t p)).

Definition urlopen (u : string) (timeout : Z) : M response :=
  call (UrlOpen u timeout) (fun t => env_urlopen E t u timeout).

Definition response_read (u : string) (r : response) : M string :=
  emit (Read u) ;; lift (read r).

(** [str(v)] as an f-string writes it. *)
Definition format_json (v : json) : string :=
  match v with
  | JNone => "None"
  | JBool true => "True"
  | JBool false => "False"
  | JInt z => str_of_Z z
  | JFloat r => r
  | JStr s => s
  | JList _ | JDict _ => env_repr E v
  end.

(** *** [check_ssh_key] *)

Definition check_argv (a : ArkTunnel) : list string :=
  [ "ssh"; "-o"; "BatchMode=yes"; "-o"; "ConnectTimeout=5";
    "-p"; ssh_port a; user a ++ "@" ++ host a; "echo 'Connected'" ].

Definition check_ssh_key : M bool :=
  try_except
    (a <- get_self ;;
     returncode <- subprocess_run (check_argv a) 10 ;;
     if returncode =? 0 then ret true
     else
       print "❌ SSH connection failed. You may need to:" ;;
       print "   1. Add your SSH key to the Vast.ai instance" ;;
       print "   2. Or use password authentication" ;;
       a <- get_self ;;
       print ("   3. Verify the SSH port (" ++ ssh_port a ++ ") is correct") ;;
       ret false)
    (except_Exception (fun e =>
       print ("❌ SSH check failed: " ++ exn_str e) ;;
       ret false)).

(** *** [create_tunnel] *)

Definition tunnel_argv (a : ArkTunnel) (local_port remote_port : Z) : list string :=
  [ "ssh"; "-N"; "-L";
    str_of_Z local_port ++ ":localhost:" ++ str_of_Z remote_port;
    "-p"; ssh_port a; user a ++ "@" ++ host a;
    "-o"; "ServerAliveInterval=30";
    "-o"; "ServerAliveCountMax=3";
    "-o"; "ExitOnForwardFailure=yes" ].

Definition create_tunnel (local_port remote_port : Z) (service_name : string)
  : M bool :=
  try_except
    (a <- get_self ;;
     let cmd := tunnel_argv a local_port remote_port in
     print ("🔗 Creating tunnel for " ++ service_name ++ ": localhost:"
              ++ str_of_Z local_port ++ " -> " ++ host a ++ ":"
              ++ str_of_Z remote_port) ;;
     process <- Popen cmd ;;
     processes_append process ;;
     sleep 2 ;;
     status <- poll process ;;
     match status with
     | None =>
         print ("✅ " ++ service_name ++ " tunnel active on port "
                  ++ str_of_Z local_port) ;;
         ret true
     | Some _ =>
         out <- communicate process ;;
         let (stdout, stderr) := (out : string * string) in
         text <- lift (env_decode E stderr) ;;
         print ("❌ Failed to create tunnel for " ++ service_name ++ ": "
                  ++ text) ;;
         ret false
     end)
    (except_Exception (fun e =>
       print ("❌ Error creating tunnel for " ++ service_name ++ ": "
                ++ exn_str e) ;;
       ret false)).

(** *** [start_tunnels] *)

(** [for local_port, config in self.services.items(): if self.create_tunnel(...):
    success_count += 1] *)
Fixpoint spawn_each (items : list (Z * service)) (success_count : Z) : M Z :=
  match items with
  | [] => ret success_count
  | (local_port, config) :: rest =>
      ok <- create_tunnel local_port (remote config) (name config) ;;
      spawn_each rest (if ok then success_count + 1 else success_count)
  end.

(** [any(p.poll() is None for p in ps)] *)
Fixpoint any_alive (ps : list pid) : M bool :=
  match ps with
  | [] => ret false
  | p :: rest =>
      status <- poll p ;;
      match status with
      | None => ret true
      | Some _ => any_alive rest
      end
  end.

Fixpoint announce (items : list (Z * service)) : M unit :=
  match items with
  | [] => ret tt
  | (local_port, config) :: rest =>
      a <- get_self ;;
      alive <- any_alive (processes a) ;;
      (if alive then print ("🌐 " ++ name config ++ ": " ++ url config)
       else ret tt) ;;
      announce rest
  end.

(** The end of [start_tunnels]: [if success_count > 0: ... else: ...]. *)
Definition start_tunnels_report (success_count : Z) : M bool :=
  if success_count >? 0 then
    print EmptyString ;;
    print "🎉 Tunnels Active! Access your services:" ;;
    print (str_repeat "=" 50) ;;
    a <- get_self ;;
    announce (services a) ;;
    print EmptyString ;;
    print "📊 Service Status:" ;;
    print "   - Frontend: The Ark forensic investigation interface" ;;
    print "   - Backend: REST API for database and analysis" ;;
    print "   - Ollama: AI models for enhanced forensic analysis" ;;
    print EmptyString ;;
    print "💡 Press Ctrl+C to stop all tunnels" ;;
    print (str_repeat "=" 50) ;;
    ret true
  else
    print "❌ No tunnels could be established" ;;
    ret false.

(** What [start_tunnels] does once the connection is verified, from the
    assignment [self.running = True] on. *)
Definition start_tunnels_spawn : M bool :=
  a <- get_self ;;
  set_self (set_running a true) ;;
  a <- get_self ;;
  success_count <- spawn_each (services a) 0 ;;
  start_tunnels_report success_count.

Definition start_tunnels : M bool :=
  print "🚀 Starting The Ark Forensic Platform SSH Tunnels" ;;
  print (str_repeat "=" 60) ;;
  a <- get_self ;;
  print ("📡 Connecting to Vast.ai instance: " ++ host a ++ ":" ++ ssh_port a) ;;
  print EmptyString ;;
  ok <- check_ssh_key ;;
  if negb ok then
    print (nl ++ "💡 To fix SSH access:") ;;
    a <- get_self ;;
    print ("   ssh-copy-id -p " ++ ssh_port a ++ " " ++ user a ++ "@" ++ host a) ;;
    print "   Or manually add your public key to ~/.ssh/authorized_keys" ;;
    ret false
  else
    print ("✅ SSH connection verified" ++ nl) ;;
    start_tunnels_spawn.

(** *** [monitor_tunnels] *)

(** The body of [for i, process in enumerate(self.processes)]. *)
Definition monitor_body (i : nat) (process : pid) : M unit :=
  status <- poll process ;;
  match status with
  | None => ret tt
  | Some _ =>
      local_port <- services_key_at i ;;
      config <- services_at local_port ;;
      let service_name := name config in
      print ("⚠️  Tunnel for " ++ service_name ++ " died, restarting...") ;;
      processes_remove process ;;
      config <- services_at local_port ;;
      create_tunnel local_port (remote config) service_name ;;
      ret tt
  end.

(** The [for] loop. Its iterator reads [self.processes] afresh at every
    step, at the position after the one it gave last, and [i] counts the
    items it gave; the body changes the list meanwhile. [fuel] bounds the
    number of steps. *)
Fixpoint monitor_for (fuel : nat) (i : nat) : M unit :=
  match fuel with
  | O => cutoff
  | S fuel' =>
      a <- get_self ;;
      match nth_error (processes a) i with
      | None => ret tt
      | Some process =>
          monitor_body i process ;;
          monitor_for fuel' (S i)
      end
  end.

Inductive loop_ctl := Continue | Break.

(** One turn of [while self.running], the [try] statement. *)
Definition monitor_cycle : M loop_ctl :=
  try_except
    (a <- get_self ;;
     monitor_for (S (List.length (processes a))) 0 ;;
     sleep 10 ;;
     ret Continue)
    (fun e =>
       if isinstance_KeyboardInterrupt e then Some (ret Break)
       else if isinstance_Exception e then
         Some (print ("❌ Monitor error: " ++ exn_str e) ;;
               sleep 5 ;;
               ret Continue)
       else None).

(** [monitor_tunnels], for at most [cycles] turns of the loop. *)
Fixpoint monitor_tunnels (cycles : nat) : M unit :=
  match cycles with
  | O => cutoff
  | S cycles' =>
      a <- get_self ;;
      if running a then
        ctl <- monitor_cycle ;;
        match ctl with
        | Break => ret tt
        | Continue => monitor_tunnels cycles'
        end
      else ret tt
  end.

(** *** [stop_tunnels] *)

Definition stop_process (process : pid) : M unit :=
  try_except
    (terminate process ;;
     wait process 5 ;;
     ret tt)
    (fun e =>
       if isinstance_TimeoutExpired e then Some (kill process)
       else if isinstance_Exception e then
         Some (print ("Error stopping process: " ++ exn_str e))
       else None).

Fixpoint stop_each (ps : list pid) : M unit :=
  match ps with
  | [] => ret tt
  | process :: rest => stop_process process ;; stop_each rest
  end.

Definition stop_tunnels : M unit :=
  print (nl ++ "🛑 Stopping tunnels...") ;;
  a <- get_self ;;
  set_self (set_running a false) ;;
  a <- get_self ;;
  stop_each (processes a) ;;
  a <- get_self ;;
  set_self (set_processes a []) ;;
  print "✅ All tunnels stopped".

(** *** [test_services] *)

Definition probe_url (local_port : Z) : string :=
  if local_port =? 8434 then
    "http://localhost:" ++ str_of_Z local_port ++ "/api/tags"
  else if local_port =? 8001 then
    "http://localhost:" ++ str_of_Z local_port ++ "/health"
  else
    "http://localhost:" ++ str_of_Z local_port.

(** The body of [for local_port, config in self.services.items()]. *)
Definition test_service (local_port : Z) (config : service) : M unit :=
  try_except
    (let u := probe_url local_port in
     resp <- urlopen u 5 ;;
     if getcode resp =? 200 then
       print ("✅ " ++ name config ++ ": OK") ;;
       if local_port =? 8434 then
         body <- response_read u resp ;;
         data <- lift (env_json_loads E body) ;;
         models <- lift (json_get data "models" (JList [])) ;;
         model_count <- lift (py_len models) ;;
         print ("   🤖 " ++ str_of_nat model_count ++ " AI models loaded")
       else if local_port =? 8001 then
         body <- response_read u resp ;;
         data <- lift (env_json_loads E body) ;;
         database <- lift (json_get data "database" (JStr "unknown")) ;;
         print ("   💾 Database: " ++ format_json database)
       else ret tt
     else
       print ("❌ " ++ name config ++ ": HTTP " ++ str_of_Z (getcode resp)))
    (except_Exception (fun e =>
       print ("❌ " ++ name config ++ ": " ++ exn_str e))).

Fixpoint test_each (items : list (Z * service)) : M unit :=
  match items with
  | [] => ret tt
  | (local_port, config) :: rest =>
      test_service local_port config ;;
      test_each rest
  end.

Definition test_services : M unit :=
  print "🔍 Testing service accessibility..." ;;
  a <- get_self ;;
  test_each (services a).

(** *** [signal_handler] *)

Definition signal_handler : M unit :=
  print (nl ++ "🛑 Received interrupt signal...") ;;
  stop_tunnels ;;
  raise (mk_exn SystemExit "0").

End Methods.

(** ** Observations on traces *)

(** The command lines of the [Popen] calls of a trace, in order. *)
Fixpoint spawns (tr : list event) : list (list string) :=
  match tr with
  | [] => []
  | Spawn argv :: tr' => argv :: spawns tr'
  | _ :: tr' => spawns tr'
  end.

(** The URLs of the [urlopen] calls of a trace, in order. *)
Fixpoint opened (tr : list event) : list string :=
  match tr with
  | [] => []
  | UrlOpen u _ :: tr' => u :: opened tr'
  | _ :: tr' => opened tr'
  end.

(** The processes a trace samples, in order. *)
Fixpoint polled (tr : list event) : list pid :=
  match tr with
  | [] => []
  | Poll p :: tr' => p :: polled tr'
  | _ :: tr' => polled tr'
  end.

(** The events of [s'] that [s] does not have yet. *)
Definition events_since (s s' : State) : list event :=
  skipn (List.length (trace s)) (trace s').

(** The return values of [create_tunnel] over the services, in order: the
    loop of [start_tunnels] without its counter. *)
Fixpoint create_each (E : Env) (items : list (Z * service)) : M (list bool) :=
  match items with
  | [] => ret []
  | (local_port, config) :: rest =>
      ok <- create_tunnel E local_port (remote config) (name config) ;;
      oks <- create_each E rest ;;
      ret (ok :: oks)
  end.

Fixpoint count_true (l : list bool) : Z :=
  match l with
  | [] => 0
  | true :: l' => 1 + count_true l'
  | false :: l' => count_true l'
  end.

(** What the specification asks of [stop_tunnels], for the processes [ps]
    and a trace that has [t] events so far: a terminate and a wait of 5
    seconds for each process, and a kill after the wait when it timed out. *)
Fixpoint stop_events (E : Env) (t : nat) (ps : list pid) : list event :=
  match ps with
  | [] => []
  | p :: rest =>
      match env_wait E (S t) p 5 with
      | inl _ => Terminate p :: Wait p 5 :: Kill p :: stop_events E (3 + t) rest
      | inr _ => Terminate p :: Wait p 5 :: stop_events E (2 + t) rest
      end
  end.

(** ** Assumptions on the outside world *)

(** Every exception the outside world raises is an [Exception]: none is a
    [KeyboardInterrupt] or a [SystemExit]. *)
Record raises_Exceptions (E : Env) : Prop := {
  re_run : forall t a z e,
    env_run E t a z = inl e -> isinstance_Exception e = true;
  re_Popen : forall t a e,
    env_Popen E t a = Some e -> isinstance_Exception e = true;
  re_poll : forall t p e,
    env_poll E t p = inl e -> isinstance_Exception e = true;
  re_communicate : forall t p e,
    env_communicate E t p = inl e -> isinstance_Exception e = true;
  re_terminate : forall t p e,
    env_terminate E t p = Some e -> isinstance_Exception e = true;
  re_wait : forall t p z e,
    env_wait E t p z = inl e -> isinstance_Exception e = true;
  re_kill : forall t p e,
    env_kill E t p = Some e -> isinstance_Exception e = true;
  re_urlopen : forall t u z e,
    env_urlopen E t u z = inl e -> isinstance_Exception e = true;
  re_read : forall t u z r e,
    env_urlopen E t u z = inr r -> read r = inl e ->
    isinstance_Exception e = true;
  re_decode : forall b e,
    env_decode E b = inl e -> isinstance_Exception e = true;
  re_json_loads : forall b e,
    env_json_loads E b = inl e -> isinstance_Exception e = true
}.

(** [Popen.poll] answers; it does not raise. *)
Definition poll_answers (E : Env) : Prop :=
  forall t p, exists status, env_poll E t p = inr status.

(** [Popen.terminate] and [Popen.kill] deliver their signal, and
    [Popen.wait(timeout)] returns or raises [TimeoutExpired], as the
    documentation of [subprocess] has them. *)
Record signals_delivered (E : Env) : Prop := {
  sd_terminate : forall t p, env_terminate E t p = None;
  sd_kill : forall t p, env_kill E t p = None;
  sd_wait : forall t p z e,
    env_wait E t p z = inl e -> isinstance_TimeoutExpired e = true
}.

(** ** Relations between the state before and after a call *)

(** A relation that every step of the methods other than an assignment to
    [self.running] keeps: recording an event, creating a process object,
    changing [self.processes]. *)
Class Frame (R : State -> State -> Prop) : Prop := {
  frame_refl : forall s, R s s;
  frame_trans : forall s1 s2 s3, R s1 s2 -> R s2 s3 -> R s1 s3;
  frame_emit : forall s ev,
    R s (mk_State (self s) (trace s ++ [ev]) (next_pid s));
  frame_pid : forall s,
    R s (mk_State (self s) (trace s) (S (next_pid s)));
  frame_processes : forall s ps,
    R s (mk_State (set_processes (self s) ps) (trace s) (next_pid s))
}.

Definition preserves {A} (R : State -> State -> Prop) (c : M A) : Prop :=
  forall s, R s (snd (c s)).

Definition running_kept (s s' : State) : Prop :=
  running (self s') = running (self s).

Definition running_stays_true (s s' : State) : Prop :=
  running (self s) = true -> running (self s') = true.

Definition trace_grows (s s' : State) : Prop :=
  exists evs, trace s' = (trace s ++ evs)%list.

(** ** Concrete worlds *)

(** Everything works: the connection is accepted, every tunnel starts and
    stays alive, every service answers 200 with the body [{}]. *)
Definition env_ok : Env :=
  {| env_run := fun _ _ _ => inr 0;
     env_Popen := fun _ _ => None;
     env_poll := fun _ _ => inr None;
     env_communicate := fun _ _ => inr (EmptyString, EmptyString);
     env_terminate := fun _ _ => None;
     env_wait := fun _ _ _ => inr 0;
     env_kill := fun _ _ => None;
     env_urlopen := fun _ _ _ => inr (mk_response 200 (inr "{}"));
     env_decode := fun b => inr b;
     env_json_loads := fun _ => inr (JDict []);
     env_repr := fun _ => EmptyString |}.

Definition with_run (E : Env) (f : nat -> list string -> Z -> exn + Z) : Env :=
  mk_Env f (env_Popen E) (env_poll E) (env_communicate E) (env_terminate E)
         (env_wait E) (env_kill E) (env_urlopen E) (env_decode E)
         (env_json_loads E) (env_repr E).

Definition with_Popen (E : Env) (f : nat -> list string -> option exn) : Env :=
  mk_Env (env_run E) f (env_poll E) (env_communicate E) (env_terminate E)
         (env_wait E) (env_kill E) (env_urlopen E) (env_decode E)
         (env_json_loads E) (env_repr E).

Definition with_poll (E : Env) (f : nat -> pid -> exn + option Z) : Env :=
  mk_Env (env_run E) (env_Popen E) f (env_communicate E) (env_terminate E)
         (env_wait E) (env_kill E) (env_urlopen E) (env_decode E)
         (env_json_loads E) (env_repr E).

Definition with_communicate (E : Env)
    (f : nat -> pid -> exn + (string * string)) : Env :=
  mk_Env (env_run E) (env_Popen E) (env_poll E) f (env_terminate E)
         (env_wait E) (env_kill E) (env_urlopen E) (env_decode E)
         (env_json_loads E) (env_repr E).

Definition with_wait (E : Env) (f : nat -> pid -> Z -> exn + Z) : Env :=
  mk_Env (env_run E) (env_Popen E) (env_poll E) (env_communicate E)
         (env_terminate E) f (env_kill E) (env_urlopen E) (env_decode E)
         (env_json_loads E) (env_repr E).

Definition with_urlopen (E : Env) (f : nat -> string -> Z -> exn + response)
  : Env :=
  mk_Env (env_run E) (env_Popen E) (env_poll E) (env_communicate E)
         (env_terminate E) (env_wait E) (env_kill E) f (env_decode E)
         (env_json_loads E) (env_repr E).

Definition with_json_loads (E : Env) (f : string -> exn + json) : Env :=
  mk_Env (env_run E) (env_Popen E) (env_poll E) (env_communicate E)
         (env_terminate E) (env_wait E) (env_kill E) (env_urlopen E)
         (env_decode E) f (env_repr E).

(** A freshly constructed object, before anything has happened. *)
Definition fresh : State := mk_State ArkTunnel_init [] 0%nat.

(** The processes of [dead] are found exited (status 255) by every sample
    taken once the trace has [n] events; every other sample finds the process
    running. *)
Definition exited_from (n : nat) (dead : list pid) (t : nat) (p : pid)
  : exn + option Z :=
  if andb (Nat.leb n t) (existsb (Nat.eqb p) dead) then inr (Some 255)
  else inr None.

(** [ssh] cannot be started for the forwarding [fwd]. *)
Definition unspawnable (fwd : string) (t : nat) (argv : list string)
  : option exn :=
  if existsb (String.eqb fwd) argv
  then Some (mk_exn OSError "[Errno 12] Cannot allocate memory")
  else None.

(** The precheck at position [t] of the trace: the remote command completes
    with exit status 0. *)
Definition precheck_ok (E : Env) (t : nat) (a : ArkTunnel) : Prop :=
  env_run E t (check_argv a) 10 = inr 0.

(** It fails: another exit status, or an [Exception] (a timeout, [ssh]
    missing). *)
Definition precheck_fails (E : Env) (t : nat) (a : ArkTunnel) : Prop :=
  match env_run E t (check_argv a) 10 with
  | inr rc => rc <> 0
  | inl e => isinstance_Exception e = true
  end.

(** The forwarding for 8434 cannot bind its local port: [ssh] starts, and has
    exited with status 255 when it is sampled. *)
Definition env_port_in_use : Env :=
  with_communicate (with_poll env_ok (exited_from 0 [0%nat]))
    (fun _ _ => inr (EmptyString, "bind [127.0.0.1]:8434: Address already in use")).

(** There is no [ssh] to run. *)
Definition env_no_ssh : Env :=
  with_run (with_Popen env_ok
              (fun _ _ => Some (mk_exn OSError "[Errno 2] No such file or directory: 'ssh'")))
    (fun _ _ _ => inl (mk_exn OSError "[Errno 2] No such file or directory: 'ssh'")).

(** The remote end rejects the key. *)
Definition env_rejected : Env := with_run env_ok (fun _ _ _ => inr 255).

(** Everything of the object but [self.processes] and [self.running]. *)
Definition config_kept (s s' : State) : Prop :=
  host (self s') = host (self s) /\
  ssh_port (self s') = ssh_port (self s) /\
  user (self s') = user (self s) /\
  services (self s') = services (self s).

(** The state in which [start_tunnels] enters its loop over the services
    when the precheck has succeeded: the banner is printed, the connection
    is verified, and [self.running] is [True]. *)
Definition after_precheck (s : State) : State :=
  mk_State
    (set_running (self s) true)
    (trace s ++
     [ Print "🚀 Starting The Ark Forensic Platform SSH Tunnels";
       Print (str_repeat "=" 60);
       Print ("📡 Connecting to Vast.ai instance: " ++ host (self s) ++ ":"
                ++ ssh_port (self s));
       Print EmptyString;
       Run (check_argv (self s)) 10;
       Print ("✅ SSH connection verified" ++ nl) ])
    (next_pid s).

(** The command line of the tunnel of one entry of [self.services]. *)
Definition service_argv (a : ArkTunnel) (item : Z * service) : list string :=
  tunnel_argv a (fst item) (remote (snd item)).

(** Worlds in which some of the forwarding processes have exited when they
    are sampled: the third (8434), the first (8080), the second and third. *)
Definition env_8434_exits : Env := with_poll env_ok (exited_from 0 [2%nat]).

Definition env_8080_exits : Env := with_poll env_ok (exited_from 0 [0%nat]).

Definition env_only_8080 : Env := with_poll env_ok (exited_from 0 [1%nat; 2%nat]).

(** The connection is accepted, and no forwarding process can be started. *)
Definition env_no_tunnel : Env :=
  with_Popen env_ok
    (fun _ _ => Some (mk_exn OSError "[Errno 24] Too many open files")).

(** [ssh] cannot be started for 8434; nothing listens on the local port 8434,
    the two other services answer. *)
Definition env_8434_down : Env :=
  with_urlopen (with_Popen env_ok (unspawnable "8434:localhost:8434"))
    (fun _ u _ =>
       if String.eqb u "http://localhost:8434/api/tags"
       then inl (mk_exn URLError "<urlopen error [Errno 111] Connection refused>")
       else inr (mk_response 200 (inr "{}"))).


(** The second forwarding process does not exit within the five seconds
    after the terminate signal. *)
Definition env_slow_exit : Env :=
  with_wait env_ok
    (fun _ p timeout =>
       if Nat.eqb p 1
       then inl (mk_exn TimeoutExpired
                   "Command '['ssh', '-N', '-L', '8001:localhost:8001']' timed out after 5 seconds")
       else inr 0).

(** [start_tunnels] is called twice on the same object; the three processes
    of the second call cannot bind their ports and have exited when they are
    sampled. *)
Definition env_started_twice : Env :=
  with_poll env_ok (exited_from 0 [3%nat; 4%nat; 5%nat]).

Definition started_twice : State :=
  snd (start_tunnels env_started_twice
         (snd (start_tunnels env_started_twice fresh))).

(** Where the [for] loop of the cycle stands when it raises for the fourth
    process of [started_twice]. *)
Definition index_error : exn := mk_exn IndexError "list index out of range".

Definition after_index_error : State :=
  snd (monitor_for env_started_twice 7 0 started_twice).

(** All three tunnels start; the processes of 8080 and of 8001 have both
    exited when the first monitoring cycle begins, 38 events into the
    trace. *)
Definition env_two_die : Env :=
  with_poll env_ok (exited_from 38 [0%nat; 1%nat]).

Definition two_die_started : State := snd (start_tunnels env_two_die fresh).

Definition two_die_monitored : State :=
  snd (monitor_cycle env_two_die two_die_started).

(** All three tunnels start; the process of 8080 has exited when the first
    monitoring cycle begins, the process of 8001 when the second begins, 48
    events into the trace. *)
Definition env_die_in_turn : Env :=
  with_poll env_ok
    (fun t p =>
       if Nat.eqb p 0 then exited_from 38 [0%nat] t p
       else exited_from 48 [1%nat] t p).

Definition in_turn_started : State := snd (start_tunnels env_die_in_turn fresh).

Definition in_turn_cycle1 : State :=
  snd (monitor_cycle env_die_in_turn in_turn_started).

Definition in_turn_cycle2 : State :=
  snd (monitor_cycle env_die_in_turn in_turn_cycle1).

(** ** Further observations and worlds *)

(** The processes a trace sends a terminate to, in order. *)
Fixpoint terminated (tr : list event) : list pid :=
  match tr with
  | [] => []
  | Terminate p :: tr' => p :: terminated tr'
  | _ :: tr' => terminated tr'
  end.

(** The list [l] without its item at position [i]. *)
Definition without_nth (i : nat) (l : list pid) : list pid :=
  (firstn i l ++ skipn (S i) l)%list.

(** The process [dead] is found exited at every sample, every other process
    running; every spawn works. *)
Definition env_one_dead (dead : pid) : Env :=
  with_poll env_ok
    (fun _ p => inr (if Nat.eqb p dead then Some 255 else None)).

(** The first process cannot be signalled, the wait for the second fails
    with an error that is no timeout, the third does not exit in time and is
    killed. *)
Definition env_stop_failures : Env :=
  mk_Env (env_run env_ok) (env_Popen env_ok) (env_poll env_ok)
         (env_communicate env_ok)
         (fun _ p =>
            if Nat.eqb p 0
            then Some (mk_exn OSError "[Errno 1] Operation not permitted")
            else None)
         (fun _ p _ =>
            if Nat.eqb p 1
            then inl (mk_exn OSError "[Errno 10] No child processes")
            else if Nat.eqb p 2
            then inl (mk_exn TimeoutExpired "timed out after 5 seconds")
            else inr 0)
         (env_kill env_ok) (env_urlopen env_ok) (env_decode env_ok)
         (env_json_loads env_ok) (env_repr env_ok).

(** No process exits in time, and the kill is refused. *)
Definition env_kill_refused : Env :=
  mk_Env (env_run env_ok) (env_Popen env_ok) (env_poll env_ok)
         (env_communicate env_ok) (env_terminate env_ok)
         (fun _ _ _ => inl (mk_exn TimeoutExpired "timed out after 5 seconds"))
         (fun _ _ => Some (mk_exn OSError "[Errno 1] Operation not permitted"))
         (env_urlopen env_ok) (env_decode env_ok)
         (env_json_loads env_ok) (env_repr env_ok).

(** The services answer 200 with a body that is no JSON. *)
Definition env_html_body : Env :=
  with_json_loads env_ok
    (fun _ => inl (mk_exn JSONDecodeError
                     "Expecting value: line 1 column 1 (char 0)")).

(** The state [start_tunnels] leaves when everything works. *)
Definition started : State := snd (start_tunnels env_ok fresh).

(** ** What a probe reports *)

(** [json.loads(response.read())]. *)
Definition body_json (E : Env) (resp : response) : exn + json :=
  match read resp with
  | inl e => inl e
  | inr body => env_json_loads E body
  end.

(** [len(data.get('models', []))] for the body of [resp]. *)
Definition models_count (E : Env) (resp : response) : exn + nat :=
  match body_json E resp with
  | inl e => inl e
  | inr data =>
      match json_get data "models" (JList []) with
      | inl e => inl e
      | inr models => py_len models
      end
  end.

(** [data.get('database', 'unknown')] for the body of [resp], as the
    f-string writes it. *)
Definition database_text (E : Env) (resp : response) : exn + string :=
  match body_json E resp with
  | inl e => inl e
  | inr data =>
      match json_get data "database" (JStr "unknown") with
      | inl e => inl e
      | inr database => inr (format_json E database)
      end
  end.

Definition ok_line (cfg : service) : event :=
  Print ("✅ " ++ name cfg ++ ": OK").

(** The failure line of a service, with its reason. *)
Definition failure_line (cfg : service) (reason : string) : event :=
  Print ("❌ " ++ name cfg ++ ": " ++ reason).

(** One turn of the loop of [test_services], as a step on states. *)
Definition test_step (E : Env) (st : State) (item : Z * service) : State :=
  snd (test_service E (fst item) (snd item) st).

(** The object with another list in [self.processes]. *)
Definition with_processes (s : State) (ps : list pid) : State :=
  mk_State (set_processes (self s) ps) (trace s) (next_pid s).

(** [ssh] cannot be started for 8434, and something else answers on the
    local port 8434. *)
Definition env_8434_foreign : Env :=
  with_Popen env_ok (unspawnable "8434:localhost:8434").

(** * Proofs *)

(** ** Generic facts on the monad *)

Ltac unfold_M :=
  unfold print, sleep in *;
  unfold try_except, except_Exception, bind, ret, raise, cutoff, lift, call,
    emit, get_self, set_self, opt_exn in *.

#[export] Instance Frame_running_kept : Frame running_kept.
Proof. split; unfold running_kept; intros; cbn; congruence. Qed.

#[export] Instance Frame_running_stays_true : Frame running_stays_true.
Proof. split; unfold running_stays_true; intros; cbn in *; auto. Qed.

#[export] Instance Frame_trace_grows : Frame trace_grows.
Proof.
  split; unfold trace_grows; intros; cbn.
  - exists []. now rewrite app_nil_r.
  - destruct H as [e1 H1], H0 as [e2 H2]. exists (e1 ++ e2)%list.
    now rewrite H2, H1, app_assoc.
  - now exists [ev].
  - exists []. now rewrite app_nil_r.
  - exists []. now rewrite app_nil_r.
Qed.

Section Preserves.

Context (R : State -> State -> Prop) `{Frame R}.

Lemma preserves_ret A (a : A) : preserves R (ret a).
Proof. intros s. apply frame_refl. Qed.

Lemma preserves_raise A (e : exn) : preserves R (@raise A e).
Proof. intros s. apply frame_refl. Qed.

Lemma preserves_cutoff A : preserves R (@cutoff A).
Proof. intros s. apply frame_refl. Qed.

Lemma preserves_lift A (r : exn + A) : preserves R (lift r).
Proof. destruct r; intros s; apply frame_refl. Qed.

Lemma preserves_get_self : preserves R get_self.
Proof. intros s. apply frame_refl. Qed.

Lemma preserves_emit ev : preserves R (emit ev).
Proof. intros s. apply frame_emit. Qed.

Lemma preserves_call A ev (answer : nat -> exn + A) : preserves R (call ev answer).
Proof.
  intros s. unfold call. destruct (answer _); apply frame_emit.
Qed.

Lemma preserves_bind A B (c : M A) (k : A -> M B) :
  preserves R c -> (forall a, preserves R (k a)) -> preserves R (bind c k).
Proof.
  intros Hc Hk s. unfold bind. specialize (Hc s).
  destruct (c s) as [[a|e|] s1]; cbn in *; auto.
  eapply frame_trans; [exact Hc | apply Hk].
Qed.

Lemma preserves_try_except A (body : M A) (handler : exn -> option (M A)) :
  preserves R body ->
  (forall e h, handler e = Some h -> preserves R h) ->
  preserves R (try_except body handler).
Proof.
  intros Hb Hh s. unfold try_except. specialize (Hb s).
  destruct (body s) as [[a|e|] s1]; cbn in *; auto.
  destruct (handler e) as [h|] eqn:Hhe; cbn; auto.
  eapply frame_trans; [exact Hb | eapply Hh; eauto].
Qed.

Lemma preserves_processes_append p : preserves R (processes_append p).
Proof. intros s. apply frame_processes. Qed.

Lemma preserves_processes_remove p : preserves R (processes_remove p).
Proof.
  intros s. unfold processes_remove. unfold_M.
  destruct (list_remove p _); cbn; [apply frame_processes | apply frame_refl].
Qed.

Lemma preserves_services_key_at i : preserves R (services_key_at i).
Proof.
  intros s. unfold services_key_at. unfold_M.
  destruct (nth_error _ _); apply frame_refl.
Qed.

Lemma preserves_services_at k : preserves R (services_at k).
Proof.
  intros s. unfold services_at. unfold_M.
  destruct (dict_lookup _ _); apply frame_refl.
Qed.

Variable E : Env.

Lemma preserves_Popen argv : preserves R (Popen E argv).
Proof.
  apply preserves_bind; [apply preserves_call | intros _ s; apply frame_pid].
Qed.

Ltac frame_step :=
  match goal with
  | |- preserves _ (bind _ _) => apply preserves_bind; [ | intros ? ]
  | |- preserves _ (try_except _ _) =>
      apply preserves_try_except; [ | intros ? ? ]
  | |- preserves _ (match ?x with _ => _ end) => destruct x
  | |- _ = Some _ -> _ => intros [= <-]
  | |- None = Some _ -> _ => discriminate
  | |- (if ?x then _ else _) = Some _ -> _ => destruct x
  | |- _ =>
      first
        [ apply preserves_ret | apply preserves_raise | apply preserves_cutoff
        | apply preserves_lift | apply preserves_get_self
        | apply preserves_emit | apply preserves_call | apply preserves_Popen
        | apply preserves_processes_append | apply preserves_processes_remove
        | apply preserves_services_key_at | apply preserves_services_at ]
  end.

Lemma preserves_check_ssh_key : preserves R (check_ssh_key E).
Proof.
  unfold check_ssh_key, subprocess_run, except_Exception, print.
  repeat frame_step.
Qed.

Lemma preserves_create_tunnel lp rp nm : preserves R (create_tunnel E lp rp nm).
Proof.
  unfold create_tunnel, poll, communicate, except_Exception, print, sleep.
  repeat frame_step.
Qed.

Lemma preserves_spawn_each items n : preserves R (spawn_each E items n).
Proof.
  revert n. induction items as [|[lp cfg] rest IH]; intros n; cbn.
  - apply preserves_ret.
  - apply preserves_bind; [apply preserves_create_tunnel | intros ok; apply IH].
Qed.

Lemma preserves_create_each items : preserves R (create_each E items).
Proof.
  induction items as [|[lp cfg] rest IH]; cbn.
  - apply preserves_ret.
  - apply preserves_bind; [apply preserves_create_tunnel | intros ok].
    apply preserves_bind; [apply IH | intros oks; apply preserves_ret].
Qed.

Lemma preserves_any_alive ps : preserves R (any_alive E ps).
Proof.
  induction ps as [|p rest IH]; cbn; unfold poll; repeat frame_step.
  apply IH.
Qed.

Lemma preserves_announce items : preserves R (announce E items).
Proof.
  induction items as [|[lp cfg] rest IH]; cbn; unfold print; repeat frame_step;
    solve [apply preserves_any_alive | apply IH].
Qed.

Lemma preserves_start_tunnels_report n : preserves R (start_tunnels_report E n).
Proof.
  unfold start_tunnels_report, print. repeat frame_step.
  apply preserves_announce.
Qed.

Lemma preserves_monitor_body i p : preserves R (monitor_body E i p).
Proof.
  unfold monitor_body, poll, print. repeat frame_step.
  apply preserves_create_tunnel.
Qed.

Lemma preserves_monitor_for fuel i : preserves R (monitor_for E fuel i).
Proof.
  revert i. induction fuel as [|fuel IH]; intros i; cbn; repeat frame_step.
  - apply preserves_monitor_body.
  - apply IH.
Qed.

Lemma preserves_monitor_cycle : preserves R (monitor_cycle E).
Proof.
  unfold monitor_cycle, print, sleep. repeat frame_step.
  apply preserves_monitor_for.
Qed.

Lemma preserves_monitor_tunnels cycles : preserves R (monitor_tunnels E cycles).
Proof.
  induction cycles as [|n IH]; cbn; repeat frame_step.
  - apply preserves_monitor_cycle.
  - apply IH.
Qed.

Lemma preserves_test_service lp cfg : preserves R (test_service E lp cfg).
Proof.
  unfold test_service, urlopen, response_read, except_Exception, print.
  repeat frame_step.
Qed.

Lemma preserves_test_each items : preserves R (test_each E items).
Proof.
  induction items as [|[lp cfg] rest IH]; cbn; repeat frame_step.
  - apply preserves_test_service.
  - apply IH.
Qed.

Lemma preserves_test_services : preserves R (test_services E).
Proof.
  unfold test_services, print. repeat frame_step. apply preserves_test_each.
Qed.

Lemma preserves_stop_process p : preserves R (stop_process E p).
Proof.
  unfold stop_process, terminate, wait, kill, print. repeat frame_step.
Qed.

Lemma preserves_stop_each ps : preserves R (stop_each E ps).
Proof.
  induction ps as [|p rest IH]; cbn; repeat frame_step.
  - apply preserves_stop_process.
  - apply IH.
Qed.

End Preserves.

(** ** Traces *)

Lemma length_snoc A (l : list A) (x : A) :
  List.length (l ++ [x]) = S (List.length l).
Proof. rewrite length_app. cbn. lia. Qed.

Lemma spawns_app tr1 tr2 : spawns (tr1 ++ tr2) = (spawns tr1 ++ spawns tr2)%list.
Proof.
  induction tr1 as [|ev tr1 IH]; cbn; [reflexivity|].
  destruct ev; cbn; now rewrite IH.
Qed.

Lemma opened_app tr1 tr2 : opened (tr1 ++ tr2) = (opened tr1 ++ opened tr2)%list.
Proof.
  induction tr1 as [|ev tr1 IH]; cbn; [reflexivity|].
  destruct ev; cbn; now rewrite IH.
Qed.

Lemma polled_app tr1 tr2 : polled (tr1 ++ tr2) = (polled tr1 ++ polled tr2)%list.
Proof.
  induction tr1 as [|ev tr1 IH]; cbn; [reflexivity|].
  destruct ev; cbn; now rewrite IH.
Qed.

Lemma events_since_app s s' evs :
  trace s' = (trace s ++ evs)%list -> events_since s s' = evs.
Proof.
  intros H. unfold events_since. rewrite H.
  rewrite skipn_app, skipn_all, Nat.sub_diag. reflexivity.
Qed.

Lemma events_since_trace s s' :
  trace_grows s s' -> trace s' = (trace s ++ events_since s s')%list.
Proof.
  intros [evs H]. now rewrite (events_since_app _ _ _ H).
Qed.

(** Brings a trace [((tr ++ [a]) ++ [b]) ++ ...] and the positions computed
    from it into the form [tr ++ [a; b; ...]]. *)
Ltac norm_trace :=
  repeat rewrite <- app_assoc in *;
  cbn [app] in *;
  repeat rewrite length_app in *;
  cbn [List.length] in *;
  repeat rewrite (Nat.add_comm (List.length _) _) in *;
  cbn [Nat.add] in *.

(** ** [check_ssh_key] and [create_tunnel] *)

Ltac check_cases E :=
  unfold check_ssh_key, subprocess_run; unfold_M; cbn;
  destruct (env_run E _ _ _) as [?e|?rc] eqn:Hrun; cbn;
  [ destruct (isinstance_Exception _) eqn:Hexc
  | destruct (_ =? 0) eqn:Hrc ]; cbn; norm_trace.

Ltac create_cases E :=
  unfold create_tunnel, Popen, poll, communicate, processes_append;
  unfold_M; cbn; norm_trace;
  destruct (env_Popen E _ _) as [?e|] eqn:HPopen; cbn; norm_trace;
  [ destruct (isinstance_Exception _) eqn:Hexc
  | destruct (env_poll E _ _) as [?e|[?rc|]] eqn:Hpoll; cbn; norm_trace;
    [ destruct (isinstance_Exception _) eqn:Hexc
    | destruct (env_communicate E _ _) as [?e|[?out ?err]] eqn:Hcomm;
      cbn; norm_trace;
      [ destruct (isinstance_Exception _) eqn:Hexc
      | destruct (env_decode E _) as [?e|?text] eqn:Hdecode; cbn; norm_trace;
        [ destruct (isinstance_Exception _) eqn:Hexc | ] ]
    | ] ]; cbn; norm_trace.

Lemma check_ssh_key_self E s : self (snd (check_ssh_key E s)) = self s.
Proof. check_cases E; reflexivity. Qed.

Lemma check_ssh_key_spawns E s :
  spawns (trace (snd (check_ssh_key E s))) = spawns (trace s).
Proof.
  check_cases E; rewrite spawns_app; cbn; now rewrite app_nil_r.
Qed.

(** [create_tunnel] makes exactly one [Popen] call, whatever happens. *)
Lemma create_tunnel_spawns E lp rp nm s :
  spawns (trace (snd (create_tunnel E lp rp nm s))) =
  (spawns (trace s) ++ [tunnel_argv (self s) lp rp])%list.
Proof. create_cases E; rewrite spawns_app; reflexivity. Qed.

(** It puts at most one process into [self.processes], the one it made. *)
Lemma create_tunnel_processes E lp rp nm s :
  processes (self (snd (create_tunnel E lp rp nm s))) = processes (self s) \/
  processes (self (snd (create_tunnel E lp rp nm s))) =
    (processes (self s) ++ [next_pid s])%list.
Proof. create_cases E; auto. Qed.

Lemma create_tunnel_not_cutoff E lp rp nm s :
  fst (create_tunnel E lp rp nm s) <> Cutoff.
Proof. create_cases E; discriminate. Qed.

Lemma create_tunnel_total E lp rp nm s :
  raises_Exceptions E ->
  exists b, fst (create_tunnel E lp rp nm s) = Ret b.
Proof.
  intros H. create_cases E; eauto.
  - rewrite (re_Popen E H _ _ _ HPopen) in Hexc. discriminate.
  - rewrite (re_poll E H _ _ _ Hpoll) in Hexc. discriminate.
  - rewrite (re_communicate E H _ _ _ Hcomm) in Hexc. discriminate.
  - rewrite (re_decode E H _ _ Hdecode) in Hexc. discriminate.
Qed.

(** It returns [True] exactly when the spawn works and the process is found
    running after the two seconds. *)
Lemma create_tunnel_true_iff E lp rp nm s :
  fst (create_tunnel E lp rp nm s) = Ret true <->
  env_Popen E (1 + List.length (trace s)) (tunnel_argv (self s) lp rp) = None /\
  env_poll E (3 + List.length (trace s)) (next_pid s) = inr None.
Proof.
  change (1 + List.length (trace s))%nat with (S (List.length (trace s))).
  change (3 + List.length (trace s))%nat with (S (S (S (List.length (trace s))))).
  create_cases E; split; try discriminate; try (intros [? ?]; congruence); auto.
Qed.

Ltac solve_raises :=
  split; cbn; unfold exited_from, unspawnable; intros;
  repeat match goal with
         | H : context [if ?b then _ else _] |- _ => destruct b
         end;
  try discriminate;
  repeat match goal with
         | H : inl _ = inl _ |- _ => injection H as <-
         | H : Some _ = Some _ |- _ => injection H as <-
         | H : inr _ = inr _ |- _ => injection H as <-
         end;
  try discriminate; try reflexivity.

Lemma raises_Exceptions_env_ok : raises_Exceptions env_ok.
Proof. solve_raises. Qed.

Lemma raises_Exceptions_env_port_in_use : raises_Exceptions env_port_in_use.
Proof. solve_raises. Qed.

Lemma raises_Exceptions_env_no_ssh : raises_Exceptions env_no_ssh.
Proof. solve_raises. Qed.

(** C2, as the code has it: when the forwarding process is spawned and is
    found exited after the two seconds, [create_tunnel] returns [False] and
    the process object it appended to [self.processes] before the wait is
    still there, at the end of the list; when the error output of the
    process can be read and decoded, the last thing printed is the failure
    message that ends with it. *)
Theorem create_tunnel_early_exit E s lp rp nm rc :
  raises_Exceptions E ->
  env_Popen E (1 + List.length (trace s)) (tunnel_argv (self s) lp rp) = None ->
  env_poll E (3 + List.length (trace s)) (next_pid s) = inr (Some rc) ->
  fst (create_tunnel E lp rp nm s) = Ret false /\
  processes (self (snd (create_tunnel E lp rp nm s))) =
    (processes (self s) ++ [next_pid s])%list /\
  forall out err text,
    env_communicate E (4 + List.length (trace s)) (next_pid s) = inr (out, err) ->
    env_decode E err = inr text ->
    events_since s (snd (create_tunnel E lp rp nm s)) =
      [ Print ("🔗 Creating tunnel for " ++ nm ++ ": localhost:"
                 ++ str_of_Z lp ++ " -> " ++ host (self s) ++ ":"
                 ++ str_of_Z rp);
        Spawn (tunnel_argv (self s) lp rp);
        Sleep 2;
        Poll (next_pid s);
        Communicate (next_pid s);
        Print ("❌ Failed to create tunnel for " ++ nm ++ ": " ++ text) ].
Proof.
  intros HE HP Hp. cbn [Nat.add] in *.
  create_cases E; try congruence;
    try (rewrite (re_communicate E HE _ _ _ Hcomm) in Hexc; discriminate);
    try (rewrite (re_decode E HE _ _ Hdecode) in Hexc; discriminate).
  all: split; [reflexivity | split; [reflexivity | ]].
  all: intros o e' t Ho Hd; try congruence.
  assert (e' = err) by congruence. subst e'.
  assert (t = text) by congruence. subst t.
  apply events_since_app. reflexivity.
Qed.

Lemma create_tunnel_early_exit_witness :
  fst (create_tunnel env_port_in_use 8434 8434 "Ollama AI API" fresh) = Ret false /\
  processes (self (snd (create_tunnel env_port_in_use 8434 8434 "Ollama AI API" fresh))) =
    (processes (self fresh) ++ [next_pid fresh])%list /\
  forall out err text,
    env_communicate env_port_in_use (4 + List.length (trace fresh)) (next_pid fresh)
      = inr (out, err) ->
    env_decode env_port_in_use err = inr text ->
    events_since fresh (snd (create_tunnel env_port_in_use 8434 8434 "Ollama AI API" fresh)) =
      [ Print ("🔗 Creating tunnel for " ++ "Ollama AI API" ++ ": localhost:"
                 ++ str_of_Z 8434 ++ " -> " ++ host (self fresh) ++ ":"
                 ++ str_of_Z 8434);
        Spawn (tunnel_argv (self fresh) 8434 8434);
        Sleep 2;
        Poll (next_pid fresh);
        Communicate (next_pid fresh);
        Print ("❌ Failed to create tunnel for " ++ "Ollama AI API" ++ ": " ++ text) ].
Proof.
  apply (create_tunnel_early_exit env_port_in_use fresh 8434 8434
           "Ollama AI API" 255).
  - exact raises_Exceptions_env_port_in_use.
  - reflexivity.
  - reflexivity.
Defined.

(** C2 as stated fails: the forwarding process for 8434 is spawned and has
    exited when it is sampled, [create_tunnel] returns [False], and
    [self.processes] is not what it was before the call: it holds the dead
    process. *)
Lemma create_tunnel_failure_keeps_handle :
  env_Popen env_port_in_use 1 (tunnel_argv (self fresh) 8434 8434) = None /\
  env_poll env_port_in_use 3 0%nat = inr (Some 255) /\
  fst (create_tunnel env_port_in_use 8434 8434 "Ollama AI API" fresh) = Ret false /\
  processes (self (snd (create_tunnel env_port_in_use 8434 8434 "Ollama AI API" fresh)))
    = [0%nat] /\
  processes (self (snd (create_tunnel env_port_in_use 8434 8434 "Ollama AI API" fresh)))
    <> processes (self fresh).
Proof.
  split; [ | split; [ | split; [ | split ] ] ]; try (vm_compute; reflexivity).
  vm_compute. intros H. discriminate H.
Qed.

(** C9: whatever the external process does (it cannot be spawned, it times
    out, it exits early, a call on it raises an exception), [check_ssh_key]
    and [create_tunnel] return a boolean: no exception reaches the caller. *)
Theorem check_ssh_key_create_tunnel_total E s lp rp nm :
  raises_Exceptions E ->
  (exists b, fst (check_ssh_key E s) = Ret b) /\
  (exists b, fst (create_tunnel E lp rp nm s) = Ret b).
Proof.
  intros HE. split; [ | now apply create_tunnel_total ].
  check_cases E; eauto.
  rewrite (re_run E HE _ _ _ _ Hrun) in Hexc. discriminate.
Qed.

Lemma check_ssh_key_create_tunnel_total_witness :
  (exists b, fst (check_ssh_key env_no_ssh fresh) = Ret b) /\
  (exists b, fst (create_tunnel env_no_ssh 8080 8080 "Frontend (The Ark UI)" fresh) = Ret b).
Proof.
  apply (check_ssh_key_create_tunnel_total env_no_ssh fresh 8080 8080
           "Frontend (The Ark UI)").
  exact raises_Exceptions_env_no_ssh.
Defined.

Lemma check_ssh_key_result E s :
  fst (check_ssh_key E s) =
  match env_run E (List.length (trace s)) (check_argv (self s)) 10 with
  | inr rc => Ret (rc =? 0)
  | inl e => if isinstance_Exception e then Ret false else Raise e
  end.
Proof.
  unfold check_ssh_key, subprocess_run; unfold_M; cbn.
  destruct (env_run E _ _ _) as [e|rc]; cbn.
  - now destruct (isinstance_Exception e).
  - now destruct (rc =? 0).
Qed.

Lemma precheck_fails_false E s :
  precheck_fails E (List.length (trace s)) (self s) ->
  fst (check_ssh_key E s) = Ret false.
Proof.
  unfold precheck_fails. rewrite check_ssh_key_result.
  destruct (env_run E _ _ _) as [e|rc].
  - now intros ->.
  - intros H. apply Z.eqb_neq in H. now rewrite H.
Qed.

(** When the precheck fails, [start_tunnels] stops after its guidance text. *)
Lemma start_tunnels_precheck_fails E s :
  precheck_fails E (4 + List.length (trace s)) (self s) ->
  exists evs,
    spawns evs = [] /\
    start_tunnels E s =
      (Ret false, mk_State (self s) (trace s ++ evs)%list (next_pid s)).
Proof.
  unfold precheck_fails, start_tunnels, check_ssh_key, subprocess_run.
  unfold_M. cbn. norm_trace.
  destruct (env_run E _ _ _) as [e|rc]; cbn.
  - intros ->. cbn. norm_trace. eexists. split; [ | reflexivity ]. reflexivity.
  - intros H. apply Z.eqb_neq in H. rewrite H. cbn. norm_trace.
    eexists. split; [ | reflexivity ]. reflexivity.
Qed.

(** C8: [check_ssh_key] returns [True] exactly when the remote command
    completes with exit status 0; on any other exit status and on any
    exception (a timeout among them) it returns [False]; and when it returns
    [False] inside [start_tunnels], [start_tunnels] returns [False] without
    a single [Popen] call and leaves the object as it was, so a registry that
    was empty is still empty. *)
Theorem check_ssh_key_gate E s :
  (fst (check_ssh_key E s) = Ret true <->
   precheck_ok E (List.length (trace s)) (self s)) /\
  (precheck_fails E (List.length (trace s)) (self s) ->
   fst (check_ssh_key E s) = Ret false) /\
  (precheck_fails E (4 + List.length (trace s)) (self s) ->
   fst (start_tunnels E s) = Ret false /\
   self (snd (start_tunnels E s)) = self s /\
   spawns (events_since s (snd (start_tunnels E s))) = [] /\
   (processes (self s) = [] -> processes (self (snd (start_tunnels E s))) = [])).
Proof.
  split; [ | split ].
  - unfold precheck_ok. rewrite check_ssh_key_result.
    destruct (env_run E _ _ _) as [e|rc].
    + destruct (isinstance_Exception e); split; discriminate.
    + split.
      * intros [= H]. apply Z.eqb_eq in H. now subst.
      * intros [= ->]. reflexivity.
  - apply precheck_fails_false.
  - intros H. destruct (start_tunnels_precheck_fails E s H) as (evs & Hevs & ->).
    cbn. repeat split; auto.
    now erewrite events_since_app by reflexivity.
Qed.

Lemma check_ssh_key_gate_witness :
  fst (start_tunnels env_rejected fresh) = Ret false /\
  self (snd (start_tunnels env_rejected fresh)) = self fresh /\
  spawns (events_since fresh (snd (start_tunnels env_rejected fresh))) = [] /\
  (processes (self fresh) = [] ->
   processes (self (snd (start_tunnels env_rejected fresh))) = []).
Proof.
  apply (check_ssh_key_gate env_rejected fresh).
  unfold precheck_fails. cbn. discriminate.
Defined.

(** ** [start_tunnels] *)

#[export] Instance Frame_config_kept : Frame config_kept.
Proof.
  split; unfold config_kept; intros; cbn; try tauto.
  destruct H as (?&?&?&?), H0 as (?&?&?&?). repeat split; congruence.
Qed.

Lemma config_kept_tunnel_argv s s' lp rp :
  config_kept s s' -> tunnel_argv (self s') lp rp = tunnel_argv (self s) lp rp.
Proof.
  intros (Hh & Hp & Hu & _). unfold tunnel_argv. now rewrite Hh, Hp, Hu.
Qed.

(** The loop with its counter returns the number of [True]s among the
    return values of the [create_tunnel] calls. *)
Lemma spawn_each_create_each E items n s :
  spawn_each E items n s =
  match create_each E items s with
  | (Ret oks, s') => (Ret (n + count_true oks), s')
  | (Raise e, s') => (Raise e, s')
  | (Cutoff, s') => (Cutoff, s')
  end.
Proof.
  revert n s. induction items as [|[lp cfg] rest IH]; intros n s; cbn.
  - unfold ret. now rewrite Z.add_0_r.
  - unfold bind, ret.
    destruct (create_tunnel E lp (remote cfg) (name cfg) s) as [[ok|e|] s1];
      try reflexivity.
    rewrite IH.
    destruct (create_each E rest s1) as [[oks|e|] s2]; try reflexivity.
    destruct ok; cbn [count_true]; do 2 f_equal; lia.
Qed.

Lemma create_each_total E items s :
  raises_Exceptions E ->
  exists oks,
    fst (create_each E items s) = Ret oks /\
    List.length oks = List.length items.
Proof.
  intros HE. revert s. induction items as [|[lp cfg] rest IH]; intros s; cbn.
  - exists []. auto.
  - unfold bind, ret.
    destruct (create_tunnel_total E lp (remote cfg) (name cfg) s HE) as [ok Hok].
    destruct (create_tunnel E lp (remote cfg) (name cfg) s) as [r s1].
    cbn in Hok. subst r.
    destruct (IH s1) as (oks & Hoks & Hlen).
    destruct (create_each E rest s1) as [r s2]. cbn in Hoks. subst r.
    exists (ok :: oks). cbn. auto.
Qed.

(** One [Popen] call for each service, in the order of [self.services],
    whatever the earlier calls returned. *)
Lemma create_each_spawns E items s :
  raises_Exceptions E ->
  spawns (trace (snd (create_each E items s))) =
  (spawns (trace s) ++ map (service_argv (self s)) items)%list.
Proof.
  intros HE. revert s. induction items as [|[lp cfg] rest IH]; intros s; cbn.
  - now rewrite app_nil_r.
  - unfold bind, ret.
    destruct (create_tunnel_total E lp (remote cfg) (name cfg) s HE) as [ok Hok].
    pose proof (create_tunnel_spawns E lp (remote cfg) (name cfg) s) as Hsp.
    pose proof (preserves_create_tunnel config_kept E lp (remote cfg) (name cfg) s)
      as Hcfg.
    destruct (create_tunnel E lp (remote cfg) (name cfg) s) as [r s1].
    cbn in Hok, Hsp, Hcfg. subst r.
    specialize (IH s1).
    destruct (create_each_total E rest s1 HE) as (oks & Hoks & _).
    destruct (create_each E rest s1) as [r s2]. cbn in Hoks, IH |- *. subst r.
    cbn. rewrite IH, Hsp, <- app_assoc. cbn. f_equal. f_equal.
    apply map_ext. intros [lp' cfg']. unfold service_argv.
    now apply config_kept_tunnel_argv.
Qed.

Lemma any_alive_total E ps s :
  poll_answers E -> exists b, fst (any_alive E ps s) = Ret b.
Proof.
  intros HP. revert s. induction ps as [|p rest IH]; intros s; cbn.
  - eexists. reflexivity.
  - unfold poll, call, bind. destruct (HP (List.length (trace s)) p) as [st ->].
    destruct st as [rc|]; [apply IH | eexists; reflexivity].
Qed.

Lemma announce_total E items s :
  poll_answers E -> fst (announce E items s) = Ret tt.
Proof.
  intros HP. revert s. induction items as [|[lp cfg] rest IH]; intros s; cbn.
  - reflexivity.
  - unfold bind at 1. unfold get_self. unfold bind at 1.
    destruct (any_alive_total E (processes (self s)) s HP) as [b Hb].
    destruct (any_alive E (processes (self s)) s) as [r s1]. cbn in Hb. subst r.
    destruct b; unfold bind, print, emit, ret; apply IH.
Qed.

Lemma start_tunnels_report_total E n s :
  poll_answers E -> fst (start_tunnels_report E n s) = Ret (n >? 0).
Proof.
  intros HP. unfold start_tunnels_report.
  destruct (n >? 0); [ | reflexivity ].
  unfold_M. cbn.
  match goal with
  | |- context [announce E ?items ?s1] =>
      pose proof (announce_total E items s1 HP) as Ha;
      destruct (announce E items s1) as [r s2]
  end.
  cbn in Ha. subst r. reflexivity.
Qed.

(** With the connection verified, [start_tunnels] is its loop and its report
    run from [after_precheck]. *)
Lemma start_tunnels_after_precheck E s :
  precheck_ok E (4 + List.length (trace s)) (self s) ->
  start_tunnels E s =
  (success_count <- spawn_each E (services (self s)) 0 ;;
   start_tunnels_report E success_count) (after_precheck s).
Proof.
  unfold precheck_ok. intros H.
  unfold start_tunnels, start_tunnels_spawn, check_ssh_key, subprocess_run.
  unfold_M. cbn. norm_trace. cbn [Nat.add] in H. rewrite H. cbn. norm_trace.
  reflexivity.
Qed.

Lemma spawns_after_precheck s : spawns (events_since s (after_precheck s)) = [].
Proof.
  unfold after_precheck. erewrite events_since_app by reflexivity. reflexivity.
Qed.

Lemma any_alive_spawns E ps s :
  spawns (trace (snd (any_alive E ps s))) = spawns (trace s).
Proof.
  revert s. induction ps as [|p rest IH]; intros s; cbn; [reflexivity|].
  unfold poll, call, bind.
  destruct (env_poll E _ p) as [e|[rc|]]; cbn; [ | rewrite IH; cbn | ];
    rewrite spawns_app; cbn; now rewrite app_nil_r.
Qed.

Lemma announce_spawns E items s :
  spawns (trace (snd (announce E items s))) = spawns (trace s).
Proof.
  revert s. induction items as [|[lp cfg] rest IH]; intros s; cbn; [reflexivity|].
  unfold bind at 1. unfold get_self. unfold bind at 1.
  pose proof (any_alive_spawns E (processes (self s)) s) as Ha.
  destruct (any_alive E (processes (self s)) s) as [[b|e|] s1]; cbn in *; auto.
  destruct b; unfold bind, print, emit, ret; rewrite IH; cbn; auto.
  rewrite spawns_app. cbn. now rewrite app_nil_r.
Qed.

Lemma start_tunnels_report_spawns E n s :
  spawns (trace (snd (start_tunnels_report E n s))) = spawns (trace s).
Proof.
  unfold start_tunnels_report. destruct (n >? 0).
  - unfold_M. cbn.
    match goal with
    | |- context [announce E ?items ?s1] =>
        pose proof (announce_spawns E items s1) as Ha;
        destruct (announce E items s1) as [[[]|e|] s2]
    end; cbn in *; norm_trace; rewrite ?spawns_app in *; cbn in *;
      rewrite ?app_nil_r in *; auto.
  - unfold_M. cbn. rewrite spawns_app. cbn. now rewrite app_nil_r.
Qed.

Lemma spawns_events_since s s' l :
  trace_grows s s' ->
  spawns (trace s') = (spawns (trace s) ++ l)%list ->
  spawns (events_since s s') = l.
Proof.
  intros Hg Hs. rewrite (events_since_trace _ _ Hg), spawns_app in Hs.
  now apply app_inv_head in Hs.
Qed.

Lemma start_tunnels_trace_grows E s : trace_grows s (snd (start_tunnels E s)).
Proof.
  unfold start_tunnels, start_tunnels_spawn.
  apply (preserves_bind trace_grows); [apply preserves_emit; exact _ | intros _].
  apply (preserves_bind trace_grows); [apply preserves_emit; exact _ | intros _].
  apply (preserves_bind trace_grows); [apply preserves_get_self; exact _ | intros a].
  apply (preserves_bind trace_grows); [apply preserves_emit; exact _ | intros _].
  apply (preserves_bind trace_grows); [apply preserves_emit; exact _ | intros _].
  apply (preserves_bind trace_grows); [apply preserves_check_ssh_key; exact _ | intros ok].
  destruct ok; cbn [negb].
  - apply (preserves_bind trace_grows); [apply preserves_emit; exact _ | intros _].
    apply (preserves_bind trace_grows); [apply preserves_get_self; exact _ | intros a'].
    apply (preserves_bind trace_grows).
    { intros s1. exists []. cbn. now rewrite app_nil_r. }
    intros _.
    apply (preserves_bind trace_grows); [apply preserves_get_self; exact _ | intros a''].
    apply (preserves_bind trace_grows); [apply preserves_spawn_each; exact _ | intros n].
    apply preserves_start_tunnels_report; exact _.
  - unfold print.
    apply (preserves_bind trace_grows); [apply preserves_emit; exact _ | intros _].
    apply (preserves_bind trace_grows); [apply preserves_get_self; exact _ | intros a'].
    apply (preserves_bind trace_grows); [apply preserves_emit; exact _ | intros _].
    apply (preserves_bind trace_grows); [apply preserves_emit; exact _ | intros _].
    apply preserves_ret; exact _.
Qed.

(** C5, as the code has it: with the connection verified, [start_tunnels]
    calls [create_tunnel] once for every service, in the order of
    [self.services], whether or not the earlier calls succeeded, and what it
    returns is the boolean [success_count > 0], where [success_count] is the
    number of calls that returned [True]. *)
Theorem start_tunnels_attempts_all E s :
  raises_Exceptions E ->
  poll_answers E ->
  precheck_ok E (4 + List.length (trace s)) (self s) ->
  exists oks,
    fst (create_each E (services (self s)) (after_precheck s)) = Ret oks /\
    List.length oks = List.length (services (self s)) /\
    spawns (events_since s (snd (start_tunnels E s))) =
      map (service_argv (self s)) (services (self s)) /\
    fst (start_tunnels E s) = Ret (count_true oks >? 0).
Proof.
  intros HE HP Hok.
  pose proof (start_tunnels_trace_grows E s) as Hg.
  rewrite (start_tunnels_after_precheck E s Hok) in *.
  destruct (create_each_total E (services (self s)) (after_precheck s) HE)
    as (oks & Hoks & Hlen).
  pose proof (create_each_spawns E (services (self s)) (after_precheck s) HE)
    as Hsp.
  exists oks. split; [exact Hoks | split; [exact Hlen | ]].
  unfold bind in *. rewrite spawn_each_create_each in *.
  destruct (create_each E (services (self s)) (after_precheck s)) as [r s3].
  cbn in Hoks, Hsp. subst r. split.
  - apply spawns_events_since; [exact Hg | ].
    rewrite start_tunnels_report_spawns, Hsp.
    rewrite spawns_app. cbn [spawns]. rewrite app_nil_r. reflexivity.
  - apply start_tunnels_report_total. exact HP.
Qed.

Lemma poll_answers_exited_from n dead : poll_answers (with_poll env_ok (exited_from n dead)).
Proof.
  intros t p. cbn. unfold exited_from.
  destruct (andb _ _); eexists; reflexivity.
Qed.

Lemma raises_Exceptions_exited_from n dead :
  raises_Exceptions (with_poll env_ok (exited_from n dead)).
Proof. solve_raises. Qed.

Lemma start_tunnels_attempts_all_witness :
  exists oks,
    fst (create_each env_8434_exits (services (self fresh)) (after_precheck fresh))
      = Ret oks /\
    List.length oks = List.length (services (self fresh)) /\
    spawns (events_since fresh (snd (start_tunnels env_8434_exits fresh))) =
      map (service_argv (self fresh)) (services (self fresh)) /\
    fst (start_tunnels env_8434_exits fresh) = Ret (count_true oks >? 0).
Proof.
  apply (start_tunnels_attempts_all env_8434_exits fresh).
  - apply raises_Exceptions_exited_from.
  - apply poll_answers_exited_from.
  - reflexivity.
Defined.

(** C5 as stated fails: [start_tunnels] returns one boolean. With two
    tunnels up and 8434 failed, with two tunnels up and 8080 failed, and with
    8080 alone up, it returns the same [True]: nothing computed from what it
    returns is the number of successful spawns, or the set of ports that
    failed. *)
Lemma start_tunnels_result_not_aggregate :
  fst (create_each env_8434_exits (services (self fresh)) (after_precheck fresh))
    = Ret [true; true; false] /\
  fst (create_each env_8080_exits (services (self fresh)) (after_precheck fresh))
    = Ret [false; true; true] /\
  fst (create_each env_only_8080 (services (self fresh)) (after_precheck fresh))
    = Ret [true; false; false] /\
  fst (start_tunnels env_8434_exits fresh) = Ret true /\
  fst (start_tunnels env_8080_exits fresh) = Ret true /\
  fst (start_tunnels env_only_8080 fresh) = Ret true /\
  ~ (exists active_count : outcome bool -> Z,
       active_count (fst (start_tunnels env_8434_exits fresh)) = 2 /\
       active_count (fst (start_tunnels env_only_8080 fresh)) = 1) /\
  ~ (exists failed : outcome bool -> list Z,
       failed (fst (start_tunnels env_8434_exits fresh)) = [8434] /\
       failed (fst (start_tunnels env_8080_exits fresh)) = [8080]).
Proof.
  assert (H1 : fst (start_tunnels env_8434_exits fresh) = Ret true)
    by (vm_compute; reflexivity).
  assert (H2 : fst (start_tunnels env_8080_exits fresh) = Ret true)
    by (vm_compute; reflexivity).
  assert (H3 : fst (start_tunnels env_only_8080 fresh) = Ret true)
    by (vm_compute; reflexivity).
  repeat match goal with |- _ /\ _ => split end;
    try (vm_compute; reflexivity); try assumption.
  - rewrite H1, H3. intros (f & Ha & Hb). congruence.
  - rewrite H1, H2. intros (f & Ha & Hb). congruence.
Qed.

(** ** [self.running] *)

Lemma start_tunnels_spawn_running E s :
  running (self (snd (start_tunnels_spawn E s))) = true.
Proof.
  change (start_tunnels_spawn E s) with
    ((success_count <- spawn_each E (services (self s)) 0 ;;
      start_tunnels_report E success_count)
       (mk_State (set_running (self s) true) (trace s) (next_pid s))).
  match goal with
  | |- running (self (snd (?c ?s1))) = true =>
      assert (Hk : preserves running_kept c); [ | exact (Hk s1) ]
  end.
  apply (preserves_bind running_kept);
    [ apply preserves_spawn_each; exact _
    | intros n; apply preserves_start_tunnels_report; exact _ ].
Qed.

Lemma start_tunnels_running_stays_true E :
  preserves running_stays_true (start_tunnels E).
Proof.
  unfold start_tunnels, print.
  apply (preserves_bind running_stays_true); [apply preserves_emit; exact _ | intros _].
  apply (preserves_bind running_stays_true); [apply preserves_emit; exact _ | intros _].
  apply (preserves_bind running_stays_true); [apply preserves_get_self; exact _ | intros a].
  apply (preserves_bind running_stays_true); [apply preserves_emit; exact _ | intros _].
  apply (preserves_bind running_stays_true); [apply preserves_emit; exact _ | intros _].
  apply (preserves_bind running_stays_true); [apply preserves_check_ssh_key; exact _ | intros ok].
  destruct ok; cbn [negb].
  - apply (preserves_bind running_stays_true); [apply preserves_emit; exact _ | intros _].
    intros s _. apply start_tunnels_spawn_running.
  - apply (preserves_bind running_stays_true); [apply preserves_emit; exact _ | intros _].
    apply (preserves_bind running_stays_true); [apply preserves_get_self; exact _ | intros a'].
    apply (preserves_bind running_stays_true); [apply preserves_emit; exact _ | intros _].
    apply (preserves_bind running_stays_true); [apply preserves_emit; exact _ | intros _].
    apply preserves_ret; exact _.
Qed.

Lemma stop_tunnels_running E s : running (self (snd (stop_tunnels E s))) = false.
Proof.
  unfold stop_tunnels. unfold_M. cbn.
  match goal with
  | |- context [stop_each E ?ps ?s1] =>
      pose proof (preserves_stop_each running_kept E ps s1) as Hk;
      destruct (stop_each E ps s1) as [[[]|e|] s2]
  end; cbn in *; exact Hk.
Qed.

(** C10: when the precheck succeeds, [start_tunnels] enters its loop over
    the services in the state [after_precheck], in which [self.running] is
    [True] and no [Popen] call has been made yet; [self.running] is [True]
    when [start_tunnels] is over, whatever it returns, [False] for no tunnel
    at all included; and no method turns [self.running] from [True] to
    [False] but [stop_tunnels], which always does. *)
Theorem start_tunnels_sets_running E s :
  precheck_ok E (4 + List.length (trace s)) (self s) ->
  running (self (after_precheck s)) = true /\
  spawns (events_since s (after_precheck s)) = [] /\
  start_tunnels E s =
    (success_count <- spawn_each E (services (self s)) 0 ;;
     start_tunnels_report E success_count) (after_precheck s) /\
  running (self (snd (start_tunnels E s))) = true /\
  (forall s0 lp rp nm cycles,
     running_stays_true s0 (snd (check_ssh_key E s0)) /\
     running_stays_true s0 (snd (create_tunnel E lp rp nm s0)) /\
     running_stays_true s0 (snd (start_tunnels E s0)) /\
     running_stays_true s0 (snd (monitor_tunnels E cycles s0)) /\
     running_stays_true s0 (snd (test_services E s0)) /\
     running (self (snd (stop_tunnels E s0))) = false).
Proof.
  intros Hok. split; [reflexivity | ]. split; [apply spawns_after_precheck | ].
  split; [now apply start_tunnels_after_precheck | ]. split.
  - rewrite (start_tunnels_after_precheck E s Hok).
    match goal with
    | |- running (self (snd (?c ?s1))) = true =>
        assert (Hk : preserves running_kept c); [ | exact (Hk s1) ]
    end.
    apply (preserves_bind running_kept);
      [ apply preserves_spawn_each; exact _
      | intros n; apply preserves_start_tunnels_report; exact _ ].
  - intros s0 lp rp nm cycles. repeat split.
    + apply preserves_check_ssh_key; exact _.
    + apply preserves_create_tunnel; exact _.
    + apply start_tunnels_running_stays_true.
    + apply preserves_monitor_tunnels; exact _.
    + apply preserves_test_services; exact _.
    + apply stop_tunnels_running.
Qed.

(** No tunnel can be started at all. *)
Lemma start_tunnels_sets_running_witness :
  fst (start_tunnels env_no_tunnel fresh) = Ret false /\
  (running (self (after_precheck fresh)) = true /\
   spawns (events_since fresh (after_precheck fresh)) = [] /\
   start_tunnels env_no_tunnel fresh =
     (success_count <- spawn_each env_no_tunnel (services (self fresh)) 0 ;;
      start_tunnels_report env_no_tunnel success_count) (after_precheck fresh) /\
   running (self (snd (start_tunnels env_no_tunnel fresh))) = true /\
   (forall s0 lp rp nm cycles,
      running_stays_true s0 (snd (check_ssh_key env_no_tunnel s0)) /\
      running_stays_true s0 (snd (create_tunnel env_no_tunnel lp rp nm s0)) /\
      running_stays_true s0 (snd (start_tunnels env_no_tunnel s0)) /\
      running_stays_true s0 (snd (monitor_tunnels env_no_tunnel cycles s0)) /\
      running_stays_true s0 (snd (test_services env_no_tunnel s0)) /\
      running (self (snd (stop_tunnels env_no_tunnel s0))) = false)).
Proof.
  split; [vm_compute; reflexivity | ].
  apply (start_tunnels_sets_running env_no_tunnel fresh).
  reflexivity.
Defined.

(** ** [test_services] *)

Ltac test_cases E :=
  unfold test_service, urlopen, response_read; unfold_M; cbn; norm_trace;
  destruct (env_urlopen E _ _ _) as [?e|?resp] eqn:Hurl; cbn; norm_trace;
  [ destruct (isinstance_Exception _) eqn:Hexc
  | destruct (getcode _ =? 200) eqn:Hcode; cbn; norm_trace;
    [ destruct (_ =? 8434) eqn:H8434; cbn; norm_trace;
      [ destruct (read _) as [?e|?body] eqn:Hread; cbn; norm_trace;
        [ destruct (isinstance_Exception _) eqn:Hexc
        | destruct (env_json_loads E _) as [?e|?data] eqn:Hjson; cbn; norm_trace;
          [ destruct (isinstance_Exception _) eqn:Hexc
          | destruct (json_get _ _ _) as [?e|?models] eqn:Hget; cbn; norm_trace;
            [ destruct (isinstance_Exception _) eqn:Hexc
            | destruct (py_len _) as [?e|?n] eqn:Hlen; cbn; norm_trace;
              [ destruct (isinstance_Exception _) eqn:Hexc | ] ] ] ]
      | destruct (_ =? 8001) eqn:H8001; cbn; norm_trace;
        [ destruct (read _) as [?e|?body] eqn:Hread; cbn; norm_trace;
          [ destruct (isinstance_Exception _) eqn:Hexc
          | destruct (env_json_loads E _) as [?e|?data] eqn:Hjson;
            cbn; norm_trace;
            [ destruct (isinstance_Exception _) eqn:Hexc
            | destruct (json_get _ _ _) as [?e|?database] eqn:Hget;
              cbn; norm_trace;
              [ destruct (isinstance_Exception _) eqn:Hexc | ] ] ]
        | ] ]
    | ] ]; cbn; norm_trace.

Lemma json_get_Exception data key default e :
  json_get data key default = inl e -> isinstance_Exception e = true.
Proof. destruct data; cbn; intros [= <-]; reflexivity. Qed.

Lemma py_len_Exception v e :
  py_len v = inl e -> isinstance_Exception e = true.
Proof. destruct v; cbn; intros [= <-]; reflexivity. Qed.

Lemma test_service_self E lp cfg s :
  self (snd (test_service E lp cfg s)) = self s.
Proof. test_cases E; reflexivity. Qed.

(** One [urlopen] call for one service, whatever happens. *)
Lemma test_service_opened E lp cfg s :
  opened (trace (snd (test_service E lp cfg s))) =
  (opened (trace s) ++ [probe_url lp])%list.
Proof. test_cases E; rewrite opened_app; reflexivity. Qed.

Lemma test_service_total E lp cfg s :
  raises_Exceptions E -> fst (test_service E lp cfg s) = Ret tt.
Proof.
  intros HE. test_cases E; try reflexivity.
  all: first
    [ rewrite (re_urlopen E HE _ _ _ _ Hurl) in Hexc
    | rewrite (re_read E HE _ _ _ _ _ Hurl Hread) in Hexc
    | rewrite (re_json_loads E HE _ _ Hjson) in Hexc
    | rewrite (json_get_Exception _ _ _ _ Hget) in Hexc
    | rewrite (py_len_Exception _ _ Hlen) in Hexc ]; discriminate.
Qed.

Lemma test_each_total E items s :
  raises_Exceptions E -> fst (test_each E items s) = Ret tt.
Proof.
  intros HE. revert s. induction items as [|[lp cfg] rest IH]; intros s; cbn.
  - reflexivity.
  - unfold bind. pose proof (test_service_total E lp cfg s HE) as Ht.
    destruct (test_service E lp cfg s) as [r s1]. cbn in Ht. subst r. apply IH.
Qed.

Lemma test_each_opened E items s :
  raises_Exceptions E ->
  opened (trace (snd (test_each E items s))) =
  (opened (trace s) ++ map (fun item => probe_url (fst item)) items)%list.
Proof.
  intros HE. revert s. induction items as [|[lp cfg] rest IH]; intros s; cbn.
  - now rewrite app_nil_r.
  - unfold bind. pose proof (test_service_total E lp cfg s HE) as Ht.
    pose proof (test_service_opened E lp cfg s) as Ho.
    destruct (test_service E lp cfg s) as [r s1]. cbn in Ht, Ho. subst r.
    rewrite IH, Ho, <- app_assoc. reflexivity.
Qed.

Lemma test_each_self E items s :
  raises_Exceptions E -> self (snd (test_each E items s)) = self s.
Proof.
  intros HE. revert s. induction items as [|[lp cfg] rest IH]; intros s; cbn.
  - reflexivity.
  - unfold bind. pose proof (test_service_total E lp cfg s HE) as Ht.
    pose proof (test_service_self E lp cfg s) as Hs.
    destruct (test_service E lp cfg s) as [r s1]. cbn in Ht, Hs. subst r.
    now rewrite IH.
Qed.

Lemma opened_events_since s s' l :
  trace_grows s s' ->
  opened (trace s') = (opened (trace s) ++ l)%list ->
  opened (events_since s s') = l.
Proof.
  intros Hg Hs. rewrite (events_since_trace _ _ Hg), opened_app in Hs.
  now apply app_inv_head in Hs.
Qed.

Lemma test_services_spec E s :
  raises_Exceptions E ->
  fst (test_services E s) = Ret tt /\
  opened (events_since s (snd (test_services E s))) =
    map (fun item => probe_url (fst item)) (services (self s)) /\
  self (snd (test_services E s)) = self s.
Proof.
  intros HE.
  pose proof (preserves_test_services trace_grows E s) as Hg.
  unfold test_services in *. unfold print, emit, get_self, bind in *.
  cbn in *.
  set (s1 := mk_State (self s) (trace s ++ [Print _]) (next_pid s)) in *.
  pose proof (test_each_total E (services (self s)) s1 HE) as Ht.
  pose proof (test_each_opened E (services (self s)) s1 HE) as Ho.
  pose proof (test_each_self E (services (self s)) s1 HE) as Hs.
  destruct (test_each E (services (self s)) s1) as [r s2].
  cbn in Ht, Ho, Hs, Hg |- *. subst r. repeat split; auto.
  apply opened_events_since; [exact Hg | ].
  rewrite Ho. subst s1. cbn. rewrite opened_app. cbn. now rewrite app_nil_r.
Qed.

(** *** What one turn of the loop prints *)

Lemma test_service_request_fails E s lp cfg e :
  env_urlopen E (List.length (trace s)) (probe_url lp) 5 = inl e ->
  isinstance_Exception e = true ->
  test_service E lp cfg s =
    (Ret tt,
     mk_State (self s)
              (trace s ++ [UrlOpen (probe_url lp) 5; failure_line cfg (exn_str e)])
              (next_pid s)).
Proof.
  intros Hu He. unfold test_service, urlopen, failure_line. unfold_M. cbn.
  rewrite Hu. cbn. rewrite He. cbn. norm_trace. reflexivity.
Qed.

Lemma test_service_other_status E s lp cfg resp :
  env_urlopen E (List.length (trace s)) (probe_url lp) 5 = inr resp ->
  getcode resp <> 200 ->
  test_service E lp cfg s =
    (Ret tt,
     mk_State (self s)
              (trace s ++
               [ UrlOpen (probe_url lp) 5;
                 failure_line cfg ("HTTP " ++ str_of_Z (getcode resp)) ])
              (next_pid s)).
Proof.
  intros Hu Hc. apply Z.eqb_neq in Hc.
  unfold test_service, urlopen, failure_line. unfold_M. cbn.
  rewrite Hu. cbn. rewrite Hc. cbn. norm_trace. reflexivity.
Qed.

Lemma body_json_Exception E t u z resp e :
  raises_Exceptions E ->
  env_urlopen E t u z = inr resp ->
  body_json E resp = inl e -> isinstance_Exception e = true.
Proof.
  intros HE Hu. unfold body_json.
  destruct (read resp) as [e'|body] eqn:Hr.
  - intros [= <-]. exact (re_read E HE _ _ _ _ _ Hu Hr).
  - intros Hj. exact (re_json_loads E HE _ _ Hj).
Qed.

Lemma models_count_Exception E t u z resp e :
  raises_Exceptions E ->
  env_urlopen E t u z = inr resp ->
  models_count E resp = inl e -> isinstance_Exception e = true.
Proof.
  intros HE Hu. unfold models_count.
  destruct (body_json E resp) as [e'|data] eqn:Hb.
  - intros [= <-]. exact (body_json_Exception E _ _ _ _ _ HE Hu Hb).
  - destruct (json_get data _ _) as [e'|models] eqn:Hg.
    + intros [= <-]. exact (json_get_Exception _ _ _ _ Hg).
    + apply py_len_Exception.
Qed.

Lemma database_text_Exception E t u z resp e :
  raises_Exceptions E ->
  env_urlopen E t u z = inr resp ->
  database_text E resp = inl e -> isinstance_Exception e = true.
Proof.
  intros HE Hu. unfold database_text.
  destruct (body_json E resp) as [e'|data] eqn:Hb.
  - intros [= <-]. exact (body_json_Exception E _ _ _ _ _ HE Hu Hb).
  - destruct (json_get data _ _) as [e'|database] eqn:Hg.
    + intros [= <-]. exact (json_get_Exception _ _ _ _ Hg).
    + discriminate.
Qed.

(** Port 8434 answers 200: the OK line, then the body is read, and the line
    with the number of models or the failure line follows. *)
Lemma test_service_200_models E s lp cfg resp :
  raises_Exceptions E ->
  env_urlopen E (List.length (trace s)) (probe_url lp) 5 = inr resp ->
  getcode resp = 200 ->
  lp = 8434 ->
  test_service E lp cfg s =
    (Ret tt,
     mk_State (self s)
              (trace s ++
               [ UrlOpen (probe_url lp) 5;
                 ok_line cfg;
                 Read (probe_url lp);
                 match models_count E resp with
                 | inr n =>
                     Print ("   🤖 " ++ str_of_nat n ++ " AI models loaded")
                 | inl e => failure_line cfg (exn_str e)
                 end ])
              (next_pid s)).
Proof.
  intros HE Hu Hc Hlp. apply Z.eqb_eq in Hc.
  assert (H1 : (lp =? 8434) = true) by (subst lp; reflexivity).
  pose proof (fun e => models_count_Exception E _ _ _ resp e HE Hu) as Hexc.
  unfold models_count, body_json in *.
  unfold test_service, urlopen, response_read, ok_line, failure_line.
  unfold_M. cbn. norm_trace. rewrite Hu. cbn. rewrite Hc, H1. cbn. norm_trace.
  destruct (read resp) as [e|body]; cbn; norm_trace.
  { rewrite (Hexc e eq_refl). cbn. norm_trace. reflexivity. }
  destruct (env_json_loads E body) as [e|data]; cbn; norm_trace.
  { rewrite (Hexc e eq_refl). cbn. norm_trace. reflexivity. }
  destruct (json_get data _ _) as [e|models]; cbn; norm_trace.
  { rewrite (Hexc e eq_refl). cbn. norm_trace. reflexivity. }
  destruct (py_len models) as [e|n]; cbn; norm_trace.
  { rewrite (Hexc e eq_refl). cbn. norm_trace. reflexivity. }
  reflexivity.
Qed.

(** Port 8001 answers 200: the OK line, then the body is read, and the line
    with the database or the failure line follows. *)
Lemma test_service_200_database E s lp cfg resp :
  raises_Exceptions E ->
  env_urlopen E (List.length (trace s)) (probe_url lp) 5 = inr resp ->
  getcode resp = 200 ->
  lp = 8001 ->
  test_service E lp cfg s =
    (Ret tt,
     mk_State (self s)
              (trace s ++
               [ UrlOpen (probe_url lp) 5;
                 ok_line cfg;
                 Read (probe_url lp);
                 match database_text E resp with
                 | inr text => Print ("   💾 Database: " ++ text)
                 | inl e => failure_line cfg (exn_str e)
                 end ])
              (next_pid s)).
Proof.
  intros HE Hu Hc Hlp. apply Z.eqb_eq in Hc.
  assert (H1 : (lp =? 8434) = false) by (subst lp; reflexivity).
  assert (H2 : (lp =? 8001) = true) by (subst lp; reflexivity).
  pose proof (fun e => database_text_Exception E _ _ _ resp e HE Hu) as Hexc.
  unfold database_text, body_json in *.
  unfold test_service, urlopen, response_read, ok_line, failure_line.
  unfold_M. cbn. norm_trace. rewrite Hu. cbn. rewrite Hc, H1, H2. cbn.
  norm_trace.
  destruct (read resp) as [e|body]; cbn; norm_trace.
  { rewrite (Hexc e eq_refl). cbn. norm_trace. reflexivity. }
  destruct (env_json_loads E body) as [e|data]; cbn; norm_trace.
  { rewrite (Hexc e eq_refl). cbn. norm_trace. reflexivity. }
  destruct (json_get data _ _) as [e|database]; cbn; norm_trace.
  { rewrite (Hexc e eq_refl). cbn. norm_trace. reflexivity. }
  reflexivity.
Qed.

(** Another port answers 200: the OK line and nothing more. *)
Lemma test_service_200_generic E s lp cfg resp :
  env_urlopen E (List.length (trace s)) (probe_url lp) 5 = inr resp ->
  getcode resp = 200 ->
  lp <> 8434 -> lp <> 8001 ->
  test_service E lp cfg s =
    (Ret tt,
     mk_State (self s)
              (trace s ++ [UrlOpen (probe_url lp) 5; ok_line cfg])
              (next_pid s)).
Proof.
  intros Hu Hc H1 H2. apply Z.eqb_eq in Hc. apply Z.eqb_neq in H1, H2.
  unfold test_service, urlopen, ok_line. unfold_M. cbn. norm_trace.
  rewrite Hu. cbn. rewrite Hc, H1, H2. cbn. norm_trace. reflexivity.
Qed.

(** On 200 the OK line comes first, whatever the port. *)
Lemma test_service_200_ok_first E s lp cfg resp :
  raises_Exceptions E ->
  env_urlopen E (List.length (trace s)) (probe_url lp) 5 = inr resp ->
  getcode resp = 200 ->
  exists rest,
    events_since s (snd (test_service E lp cfg s)) =
      UrlOpen (probe_url lp) 5 :: ok_line cfg :: rest.
Proof.
  intros HE Hu Hc.
  destruct (Z.eq_dec lp 8434) as [H1|H1];
    [ | destruct (Z.eq_dec lp 8001) as [H2|H2] ].
  - rewrite (test_service_200_models E s lp cfg resp HE Hu Hc H1).
    eexists. apply events_since_app. reflexivity.
  - rewrite (test_service_200_database E s lp cfg resp HE Hu Hc H2).
    eexists. apply events_since_app. reflexivity.
  - rewrite (test_service_200_generic E s lp cfg resp Hu Hc H1 H2).
    eexists. apply events_since_app. reflexivity.
Qed.

(** A turn of the loop reads [self] nowhere: its outcome and what it adds to
    the trace are the same whatever [self.processes] holds. *)
Lemma test_service_ignores_processes E lp cfg s ps :
  fst (test_service E lp cfg (with_processes s ps)) =
    fst (test_service E lp cfg s) /\
  trace (snd (test_service E lp cfg (with_processes s ps))) =
    trace (snd (test_service E lp cfg s)) /\
  snd (test_service E lp cfg (with_processes s ps)) =
    with_processes (snd (test_service E lp cfg s)) ps.
Proof.
  unfold with_processes. test_cases E; auto.
Qed.

(** *** The loop *)

Lemma test_each_steps E items s :
  raises_Exceptions E ->
  snd (test_each E items s) = fold_left (test_step E) items s.
Proof.
  intros HE. revert s. induction items as [|[lp cfg] rest IH]; intros s; cbn.
  - reflexivity.
  - unfold bind. unfold test_step at 2. cbn [fst snd].
    pose proof (test_service_total E lp cfg s HE) as Ht.
    destruct (test_service E lp cfg s) as [r s1]. cbn in Ht |- *. subst r.
    apply IH.
Qed.

Lemma test_each_ignores_processes E items s ps :
  raises_Exceptions E ->
  snd (test_each E items (with_processes s ps)) =
    with_processes (snd (test_each E items s)) ps.
Proof.
  intros HE. revert s. induction items as [|[lp cfg] rest IH]; intros s; cbn.
  - reflexivity.
  - unfold bind.
    destruct (test_service_ignores_processes E lp cfg s ps) as (Hf & _ & Hs).
    pose proof (test_service_total E lp cfg s HE) as Ht.
    destruct (test_service E lp cfg (with_processes s ps)) as [r' s1'].
    destruct (test_service E lp cfg s) as [r s1].
    cbn in Hf, Hs, Ht. subst r r' s1'. apply IH.
Qed.

Lemma test_services_steps E s :
  raises_Exceptions E ->
  snd (test_services E s) =
    fold_left (test_step E) (services (self s))
      (mk_State (self s)
                (trace s ++ [Print "🔍 Testing service accessibility..."])
                (next_pid s)).
Proof.
  intros HE. unfold test_services. unfold print, emit, get_self, bind. cbn.
  set (s1 := mk_State (self s) (trace s ++ [Print _]) (next_pid s)).
  pose proof (test_each_steps E (services (self s)) s1 HE) as Hs.
  pose proof (test_each_total E (services (self s)) s1 HE) as Ht.
  destruct (test_each E (services (self s)) s1) as [r s2].
  cbn in Hs, Ht |- *. subst r. exact Hs.
Qed.

Lemma test_services_ignores_processes E s ps :
  raises_Exceptions E ->
  trace (snd (test_services E (with_processes s ps))) =
    trace (snd (test_services E s)).
Proof.
  intros HE. unfold test_services. unfold print, emit, get_self, bind. cbn.
  pose (s1 := mk_State (self s)
                (trace s ++ [Print "🔍 Testing service accessibility..."])
                (next_pid s)).
  pose proof (test_each_ignores_processes E (services (self s)) s1 ps HE) as Hi.
  pose proof (test_each_total E (services (self s)) s1 HE) as Ht.
  pose proof (test_each_total E (services (self s)) (with_processes s1 ps) HE)
    as Ht'.
  unfold with_processes in Hi, Ht'. subst s1. cbn [self trace next_pid] in *.
  destruct (test_each E (services (self s))
              (mk_State (set_processes (self s) ps) _ (next_pid s)))
    as [r' s2'].
  destruct (test_each E (services (self s)) (mk_State (self s) _ (next_pid s)))
    as [r s2].
  cbn in Hi, Ht, Ht' |- *. subst r r' s2'. reflexivity.
Qed.

(** C3, as the code has it: [test_services] does not look at
    [self.processes]. It makes one HTTP request for every entry of
    [self.services], in order, whatever the registry holds, leaves the
    object as it was, and prints the same whatever [self.processes] is. It
    is its header line followed by one turn of its loop for each service,
    and a turn reports the service from the outcome of its own request
    alone: the failure line with the text of the exception when the request
    raises, the failure line with the status on a status other than 200, and
    the OK line first on 200. *)
Theorem test_services_probes_every_service E s :
  raises_Exceptions E ->
  fst (test_services E s) = Ret tt /\
  opened (events_since s (snd (test_services E s))) =
    map (fun item => probe_url (fst item)) (services (self s)) /\
  self (snd (test_services E s)) = self s /\
  (forall ps,
     trace (snd (test_services E (with_processes s ps))) =
     trace (snd (test_services E s))) /\
  snd (test_services E s) =
    fold_left (test_step E) (services (self s))
      (mk_State (self s)
                (trace s ++ [Print "🔍 Testing service accessibility..."])
                (next_pid s)) /\
  (forall st item,
     (forall e,
        env_urlopen E (List.length (trace st)) (probe_url (fst item)) 5 = inl e ->
        events_since st (test_step E st item) =
          [ UrlOpen (probe_url (fst item)) 5;
            failure_line (snd item) (exn_str e) ]) /\
     (forall resp,
        env_urlopen E (List.length (trace st)) (probe_url (fst item)) 5 = inr resp ->
        getcode resp <> 200 ->
        events_since st (test_step E st item) =
          [ UrlOpen (probe_url (fst item)) 5;
            failure_line (snd item) ("HTTP " ++ str_of_Z (getcode resp)) ]) /\
     (forall resp,
        env_urlopen E (List.length (trace st)) (probe_url (fst item)) 5 = inr resp ->
        getcode resp = 200 ->
        exists rest,
          events_since st (test_step E st item) =
            UrlOpen (probe_url (fst item)) 5 :: ok_line (snd item) :: rest)).
Proof.
  intros HE. destruct (test_services_spec E s HE) as (H1 & H2 & H3).
  split; [exact H1 | ]. split; [exact H2 | ]. split; [exact H3 | ].
  split; [intros ps; now apply test_services_ignores_processes | ].
  split; [now apply test_services_steps | ].
  intros st [lp cfg]. unfold test_step. cbn [fst snd]. split; [ | split ].
  - intros e Hu.
    rewrite (test_service_request_fails E st lp cfg e Hu
               (re_urlopen E HE _ _ _ _ Hu)).
    apply events_since_app. reflexivity.
  - intros resp Hu Hc.
    rewrite (test_service_other_status E st lp cfg resp Hu Hc).
    apply events_since_app. reflexivity.
  - intros resp Hu Hc. now apply (test_service_200_ok_first E st lp cfg resp).
Qed.

Lemma raises_Exceptions_env_8434_down : raises_Exceptions env_8434_down.
Proof. solve_raises. Qed.

Lemma test_services_probes_every_service_witness :
  fst (test_services env_8434_down (snd (start_tunnels env_8434_down fresh))) = Ret tt /\
  opened (events_since (snd (start_tunnels env_8434_down fresh))
            (snd (test_services env_8434_down (snd (start_tunnels env_8434_down fresh))))) =
    map (fun item => probe_url (fst item))
        (services (self (snd (start_tunnels env_8434_down fresh)))) /\
  self (snd (test_services env_8434_down (snd (start_tunnels env_8434_down fresh)))) =
    self (snd (start_tunnels env_8434_down fresh)) /\
  (forall ps,
     trace (snd (test_services env_8434_down
                   (with_processes (snd (start_tunnels env_8434_down fresh)) ps))) =
     trace (snd (test_services env_8434_down
                   (snd (start_tunnels env_8434_down fresh))))).
Proof.
  destruct (test_services_probes_every_service env_8434_down
              (snd (start_tunnels env_8434_down fresh))
              raises_Exceptions_env_8434_down)
    as (H1 & H2 & H3 & H4 & _).
  split; [exact H1 | ]. split; [exact H2 | ]. split; [exact H3 | exact H4].
Defined.

(** The other side of it: [ssh] could not be started for 8434, the registry
    holds the two other processes, something else answers on the local port
    8434, and [test_services] reports the service of 8434 as OK. *)
Lemma test_services_reports_untracked_ok :
  processes (self (snd (start_tunnels env_8434_foreign fresh))) = [0%nat; 1%nat] /\
  In (Print "✅ Ollama AI API: OK")
     (events_since (snd (start_tunnels env_8434_foreign fresh))
        (snd (test_services env_8434_foreign
                (snd (start_tunnels env_8434_foreign fresh))))).
Proof.
  split; [vm_compute; reflexivity | ]. vm_compute. auto 20.
Qed.

(** C3 as stated fails: [start_tunnels] could not start [ssh] for 8434, so
    the registry holds the two other processes only, and [test_services]
    still sends its request to port 8434. *)
Lemma test_services_probes_untracked :
  fst (start_tunnels env_8434_down fresh) = Ret true /\
  processes (self (snd (start_tunnels env_8434_down fresh))) = [0%nat; 1%nat] /\
  opened (events_since (snd (start_tunnels env_8434_down fresh))
            (snd (test_services env_8434_down (snd (start_tunnels env_8434_down fresh))))) =
    [ "http://localhost:8080"; "http://localhost:8001/health";
      "http://localhost:8434/api/tags" ] /\
  In (UrlOpen "http://localhost:8434/api/tags" 5)
     (events_since (snd (start_tunnels env_8434_down fresh))
        (snd (test_services env_8434_down (snd (start_tunnels env_8434_down fresh))))).
Proof.
  split; [ | split; [ | split ] ]; try (vm_compute; reflexivity).
  vm_compute. auto 20.
Qed.





(** ** [stop_tunnels] *)

Lemma stop_each_delivered E ps s :
  signals_delivered E ->
  stop_each E ps s =
  (Ret tt,
   mk_State (self s)
            (trace s ++ stop_events E (List.length (trace s)) ps)
            (next_pid s)).
Proof.
  intros HE. revert s. induction ps as [|p rest IH]; intros s; cbn.
  - unfold ret. rewrite app_nil_r. now destruct s.
  - unfold bind at 1. unfold stop_process, terminate, wait, kill. unfold_M.
    cbn. rewrite (sd_terminate E HE). cbn. norm_trace.
    destruct (env_wait E (S (List.length (trace s))) p 5) as [e|rc] eqn:Hw; cbn.
    + rewrite (sd_wait E HE _ _ _ _ Hw). cbn. rewrite (sd_kill E HE). cbn.
      norm_trace. rewrite IH. cbn. norm_trace. reflexivity.
    + rewrite IH. cbn. norm_trace. reflexivity.
Qed.

Lemma stop_events_all E t ps p :
  In p ps ->
  In (Terminate p) (stop_events E t ps) /\ In (Wait p 5) (stop_events E t ps).
Proof.
  revert t. induction ps as [|q rest IH]; intros t Hin; [destruct Hin | ].
  cbn [stop_events]. destruct Hin as [-> | Hin].
  - destruct (env_wait E (S t) p 5); cbn; auto.
  - destruct (env_wait E (S t) q 5);
      [ destruct (IH (3 + t)%nat Hin) | destruct (IH (2 + t)%nat Hin) ];
      cbn; auto 6.
Qed.

(** C6: [stop_tunnels] sends a terminate to every process of
    [self.processes], in order, waits up to five seconds for each, kills
    those whose wait timed out ([stop_events]), and ends with
    [self.processes] empty and [self.running] false; called again on the
    state it leaves, it touches no process and leaves the object as it is. *)
Theorem stop_tunnels_clears_registry E s :
  signals_delivered E ->
  stop_tunnels E s =
    (Ret tt,
     mk_State (set_processes (set_running (self s) false) [])
              (trace s ++
               Print (nl ++ "🛑 Stopping tunnels...") ::
               stop_events E (S (List.length (trace s))) (processes (self s)) ++
               [Print "✅ All tunnels stopped"])
              (next_pid s)) /\
  (forall p, In p (processes (self s)) ->
     In (Terminate p)
        (stop_events E (S (List.length (trace s))) (processes (self s))) /\
     In (Wait p 5)
        (stop_events E (S (List.length (trace s))) (processes (self s)))) /\
  processes (self (snd (stop_tunnels E s))) = [] /\
  stop_tunnels E (snd (stop_tunnels E s)) =
    (Ret tt,
     mk_State (self (snd (stop_tunnels E s)))
              (trace (snd (stop_tunnels E s)) ++
               [ Print (nl ++ "🛑 Stopping tunnels...");
                 Print "✅ All tunnels stopped" ])
              (next_pid (snd (stop_tunnels E s)))).
Proof.
  intros HE.
  assert (H1 : stop_tunnels E s =
    (Ret tt,
     mk_State (set_processes (set_running (self s) false) [])
              (trace s ++
               Print (nl ++ "🛑 Stopping tunnels...") ::
               stop_events E (S (List.length (trace s))) (processes (self s)) ++
               [Print "✅ All tunnels stopped"])
              (next_pid s))).
  { unfold stop_tunnels. unfold_M. cbn. rewrite (stop_each_delivered _ _ _ HE).
    cbn. norm_trace. reflexivity. }
  split; [exact H1 | ]. split; [intros p Hp; now apply stop_events_all | ].
  rewrite H1. cbn [snd self processes set_processes trace next_pid].
  split; [reflexivity | ].
  unfold stop_tunnels. unfold_M. cbn. norm_trace. reflexivity.
Qed.

Lemma signals_delivered_env_slow_exit : signals_delivered env_slow_exit.
Proof.
  split; cbn; intros; try reflexivity.
  destruct (Nat.eqb p 1); [ | discriminate ].
  injection H as <-. reflexivity.
Qed.

Lemma stop_tunnels_clears_registry_witness :
  processes (self (snd (start_tunnels env_slow_exit fresh))) = [0%nat; 1%nat; 2%nat] /\
  stop_events env_slow_exit
    (S (List.length (trace (snd (start_tunnels env_slow_exit fresh)))))
    (processes (self (snd (start_tunnels env_slow_exit fresh)))) =
    [ Terminate 0%nat; Wait 0%nat 5; Terminate 1%nat; Wait 1%nat 5; Kill 1%nat;
      Terminate 2%nat; Wait 2%nat 5 ] /\
  processes (self (snd (stop_tunnels env_slow_exit
                          (snd (start_tunnels env_slow_exit fresh))))) = [].
Proof.
  split; [vm_compute; reflexivity | ]. split; [vm_compute; reflexivity | ].
  apply (stop_tunnels_clears_registry env_slow_exit
           (snd (start_tunnels env_slow_exit fresh))).
  exact signals_delivered_env_slow_exit.
Defined.

(** ** [monitor_tunnels] *)

Lemma list_remove_length x l l' :
  list_remove x l = Some l' -> List.length l = S (List.length l').
Proof.
  revert l'. induction l as [|y l IH]; intros l'; cbn; [discriminate | ].
  destruct (Nat.eqb y x).
  - now intros [= ->].
  - destruct (list_remove x l) as [r|]; [ | discriminate ].
    intros [= <-]. cbn. f_equal. now apply IH.
Qed.

(** A turn of the loop that ends normally does not make [self.processes]
    longer: what it removes it replaces by at most one process. *)
Lemma monitor_body_length E i p s :
  fst (monitor_body E i p s) = Ret tt ->
  (List.length (processes (self (snd (monitor_body E i p s)))) <=
   List.length (processes (self s)))%nat.
Proof.
  unfold monitor_body, poll, services_key_at, services_at, processes_remove.
  unfold_M. cbn.
  destruct (env_poll E _ p) as [e|[rc|]]; cbn; try discriminate; [ | lia ].
  destruct (nth_error _ i) as [lp|]; cbn; try discriminate.
  destruct (dict_lookup lp _) as [cfg|] eqn:Hcfg; cbn; try discriminate.
  destruct (list_remove p _) as [ps|] eqn:Hrm; cbn; try discriminate.
  rewrite Hcfg. cbn.
  apply list_remove_length in Hrm.
  match goal with
  | |- context [create_tunnel E ?a ?b ?c ?s1] =>
      pose proof (create_tunnel_processes E a b c s1) as Hc;
      destruct (create_tunnel E a b c s1) as [[ok|e|] s2]
  end; cbn in *; try discriminate.
  intros _. destruct Hc as [-> | ->]; rewrite ?length_app; cbn; lia.
Qed.

Lemma monitor_body_not_cutoff E i p s : fst (monitor_body E i p s) <> Cutoff.
Proof.
  unfold monitor_body, poll, services_key_at, services_at, processes_remove.
  unfold_M. cbn.
  destruct (env_poll E _ p) as [e|[rc|]]; cbn; try discriminate.
  destruct (nth_error _ i) as [lp|]; cbn; try discriminate.
  destruct (dict_lookup lp _) as [cfg|] eqn:Hcfg; cbn; try discriminate.
  destruct (list_remove p _) as [ps|]; cbn; try discriminate.
  rewrite Hcfg. cbn.
  match goal with
  | |- context [create_tunnel E ?a ?b ?c ?s2] =>
      pose proof (create_tunnel_not_cutoff E a b c s2) as Hc;
      destruct (create_tunnel E a b c s2) as [[ok|e|] s3]
  end; cbn in *; try discriminate. congruence.
Qed.

(** The bound [monitor_cycle] gives its [for] loop is never reached. *)
Lemma monitor_for_fuel E fuel i s :
  (List.length (processes (self s)) - i < fuel)%nat ->
  fst (monitor_for E fuel i s) <> Cutoff.
Proof.
  revert i s. induction fuel as [|fuel IH]; intros i s Hlt; [lia | ].
  cbn. unfold bind at 1. unfold get_self.
  destruct (nth_error (processes (self s)) i) as [p|] eqn:Hnth;
    [ | discriminate ].
  assert (Hi : (i < List.length (processes (self s)))%nat)
    by (apply nth_error_Some; congruence).
  unfold bind. pose proof (monitor_body_length E i p s) as Hlen.
  pose proof (monitor_body_not_cutoff E i p s) as Hnc.
  destruct (monitor_body E i p s) as [[[]|e|] s1] eqn:Hb; cbn in *.
  - apply IH. specialize (Hlen eq_refl). lia.
  - discriminate.
  - congruence.
Qed.

Lemma monitor_cycle_not_cutoff E s : fst (monitor_cycle E s) <> Cutoff.
Proof.
  unfold monitor_cycle, try_except. unfold bind at 1. unfold get_self.
  unfold bind at 1.
  pose proof (monitor_for_fuel E (S (List.length (processes (self s)))) 0 s) as Hf.
  destruct (monitor_for E _ 0 s) as [[[]|e|] s1]; cbn in *.
  - discriminate.
  - destruct (isinstance_KeyboardInterrupt e); [discriminate | ].
    destruct (isinstance_Exception e); discriminate.
  - exfalso. apply Hf; [lia | reflexivity].
Qed.

(** The [for] loop ends where the body raises. *)
Lemma monitor_for_raise E fuel i s p e s1 :
  nth_error (processes (self s)) i = Some p ->
  monitor_body E i p s = (Raise e, s1) ->
  monitor_for E (S fuel) i s = (Raise e, s1).
Proof.
  intros Hnth Hb. cbn. unfold bind, get_self. now rewrite Hnth, Hb.
Qed.

Lemma Exception_not_KeyboardInterrupt e :
  isinstance_Exception e = true -> isinstance_KeyboardInterrupt e = false.
Proof.
  unfold isinstance_Exception, isinstance_KeyboardInterrupt.
  destruct (exn_cls e); congruence.
Qed.

(** C4, as the code has it: the [try] of [monitor_tunnels] encloses the
    whole [for] loop. When the handling of one process raises an exception,
    the loop ends there and the processes after it are not sampled in this
    cycle; the error is printed, five seconds are waited in place of the ten,
    and the [while] loop goes on with its next turn, [self.running] being
    what it was. *)
Theorem monitor_cycle_error_backoff E s e s1 :
  monitor_for E (S (List.length (processes (self s)))) 0 s = (Raise e, s1) ->
  isinstance_Exception e = true ->
  monitor_cycle E s =
    (Ret Continue,
     mk_State (self s1)
              (trace s1 ++ [Print ("❌ Monitor error: " ++ exn_str e); Sleep 5])
              (next_pid s1)) /\
  running (self s1) = running (self s) /\
  (forall cycles,
     running (self s) = true ->
     monitor_tunnels E (S cycles) s =
     monitor_tunnels E cycles
       (mk_State (self s1)
                 (trace s1 ++ [Print ("❌ Monitor error: " ++ exn_str e); Sleep 5])
                 (next_pid s1))) /\
  (forall fuel i s' p e' s1',
     nth_error (processes (self s')) i = Some p ->
     monitor_body E i p s' = (Raise e', s1') ->
     monitor_for E (S fuel) i s' = (Raise e', s1')).
Proof.
  intros Hfor Hexc.
  assert (Hc : monitor_cycle E s =
    (Ret Continue,
     mk_State (self s1)
              (trace s1 ++ [Print ("❌ Monitor error: " ++ exn_str e); Sleep 5])
              (next_pid s1))).
  { unfold monitor_cycle, try_except, bind at 1, get_self.
    unfold bind at 1. rewrite Hfor.
    rewrite (Exception_not_KeyboardInterrupt e Hexc), Hexc.
    unfold_M. cbn. norm_trace. reflexivity. }
  split; [exact Hc | ]. split; [ | split ].
  - pose proof (preserves_monitor_for running_kept E
                  (S (List.length (processes (self s)))) 0 s) as Hk.
    rewrite Hfor in Hk. exact Hk.
  - intros cycles Hrun. cbn [monitor_tunnels]. unfold bind at 1, get_self.
    rewrite Hrun. unfold bind. rewrite Hc. reflexivity.
  - intros. eapply monitor_for_raise; eauto.
Qed.

Lemma monitor_cycle_error_backoff_witness :
  monitor_cycle env_started_twice started_twice =
    (Ret Continue,
     mk_State (self after_index_error)
              (trace after_index_error ++
               [Print ("❌ Monitor error: " ++ exn_str index_error); Sleep 5])
              (next_pid after_index_error)) /\
  running (self after_index_error) = running (self started_twice).
Proof.
  destruct (monitor_cycle_error_backoff env_started_twice started_twice
              index_error after_index_error) as (H1 & H2 & _).
  - vm_compute. reflexivity.
  - reflexivity.
  - split; [exact H1 | exact H2].
Defined.

(** C4 as stated fails: the object holds six processes for its three
    services, the last three have exited. The cycle samples the first four,
    the handling of the fourth raises [IndexError], the error is printed and
    five seconds are waited: the fifth and the sixth process are not sampled
    in this cycle. *)
Lemma monitor_cycle_error_skips_rest :
  processes (self started_twice) =
    [0%nat; 1%nat; 2%nat; 3%nat; 4%nat; 5%nat] /\
  fst (monitor_cycle env_started_twice started_twice) = Ret Continue /\
  events_since started_twice (snd (monitor_cycle env_started_twice started_twice)) =
    [ Poll 0%nat; Poll 1%nat; Poll 2%nat; Poll 3%nat;
      Print "❌ Monitor error: list index out of range"; Sleep 5 ] /\
  ~ In (Poll 4%nat)
       (events_since started_twice
          (snd (monitor_cycle env_started_twice started_twice))) /\
  ~ In (Poll 5%nat)
       (events_since started_twice
          (snd (monitor_cycle env_started_twice started_twice))).
Proof.
  assert (H : events_since started_twice
                (snd (monitor_cycle env_started_twice started_twice)) =
              [ Poll 0%nat; Poll 1%nat; Poll 2%nat; Poll 3%nat;
                Print "❌ Monitor error: list index out of range"; Sleep 5 ])
    by (vm_compute; reflexivity).
  split; [vm_compute; reflexivity | ].
  split; [vm_compute; reflexivity | ].
  split; [exact H | ].
  rewrite H. split; intros Hin; cbn in Hin;
    repeat (destruct Hin as [Hin | Hin]; [discriminate Hin | ]); exact Hin.
Qed.

(** C1, where the code departs from it. First world: the processes of 8080
    and of 8001 have both exited when the cycle begins. The cycle samples
    the process of 8080, removes it and starts a new one, and then goes on
    with the third item of the list it has changed: the dead process of 8001
    is not sampled, stays in [self.processes], and no tunnel is started for
    8001. Second world: the process of 8080 dies first and is replaced, which
    moves the process of 8001 to the head of the list; when that one dies,
    the cycle takes the service from the position in the list and starts a
    second tunnel for 8080, none for 8001. *)
Theorem monitor_cycle_misses_dead_process :
  (fst (start_tunnels env_two_die fresh) = Ret true /\
   spawns (trace two_die_started) =
     [ tunnel_argv ArkTunnel_init 8080 8080;
       tunnel_argv ArkTunnel_init 8001 8001;
       tunnel_argv ArkTunnel_init 8434 8434 ] /\
   processes (self two_die_started) = [0%nat; 1%nat; 2%nat] /\
   List.length (trace two_die_started) = 38%nat /\
   env_poll env_two_die 38 1%nat = inr (Some 255) /\
   fst (monitor_cycle env_two_die two_die_started) = Ret Continue /\
   polled (events_since two_die_started two_die_monitored) =
     [0%nat; 3%nat; 2%nat; 3%nat] /\
   spawns (events_since two_die_started two_die_monitored) =
     [ tunnel_argv ArkTunnel_init 8080 8080 ] /\
   processes (self two_die_monitored) = [1%nat; 2%nat; 3%nat]) /\
  (processes (self in_turn_started) = [0%nat; 1%nat; 2%nat] /\
   processes (self in_turn_cycle1) = [1%nat; 2%nat; 3%nat] /\
   List.length (trace in_turn_cycle1) = 48%nat /\
   env_poll env_die_in_turn 48 1%nat = inr (Some 255) /\
   fst (monitor_cycle env_die_in_turn in_turn_cycle1) = Ret Continue /\
   polled (events_since in_turn_cycle1 in_turn_cycle2) =
     [1%nat; 4%nat; 3%nat; 4%nat] /\
   spawns (events_since in_turn_cycle1 in_turn_cycle2) =
     [ tunnel_argv ArkTunnel_init 8080 8080 ] /\
   processes (self in_turn_cycle2) = [2%nat; 3%nat; 4%nat]).
Proof.
  repeat match goal with |- _ /\ _ => split end; vm_compute; reflexivity.
Qed.

(** * Further properties of the methods *)

(** ** [create_tunnel] *)

(** X1: whatever happens, [create_tunnel] makes exactly one [Popen] call,
    with the command line of its two ports; it leaves [self.processes] as it
    was or with the one new process at its end, and it touches neither
    [self.running] nor the configuration. *)
Theorem create_tunnel_one_spawn_one_handle E lp rp nm s :
  spawns (events_since s (snd (create_tunnel E lp rp nm s))) =
    [tunnel_argv (self s) lp rp] /\
  (processes (self (snd (create_tunnel E lp rp nm s))) = processes (self s) \/
   processes (self (snd (create_tunnel E lp rp nm s))) =
     (processes (self s) ++ [next_pid s])%list) /\
  running (self (snd (create_tunnel E lp rp nm s))) = running (self s) /\
  config_kept s (snd (create_tunnel E lp rp nm s)).
Proof.
  split; [ | split; [ | split ] ].
  - apply spawns_events_since.
    + apply preserves_create_tunnel; exact _.
    + apply create_tunnel_spawns.
  - apply create_tunnel_processes.
  - apply (preserves_create_tunnel running_kept); exact _.
  - apply preserves_create_tunnel; exact _.
Qed.

(** X2: [create_tunnel] returns [True] exactly when the spawn works and the
    process is found running at the sample taken after the two seconds; it
    has then put the new process at the end of [self.processes] and printed
    the line that reports the tunnel active. *)
Theorem create_tunnel_success_iff E lp rp nm s :
  (fst (create_tunnel E lp rp nm s) = Ret true <->
   env_Popen E (1 + List.length (trace s)) (tunnel_argv (self s) lp rp) = None /\
   env_poll E (3 + List.length (trace s)) (next_pid s) = inr None) /\
  (fst (create_tunnel E lp rp nm s) = Ret true ->
   snd (create_tunnel E lp rp nm s) =
     mk_State
       (set_processes (self s) (processes (self s) ++ [next_pid s]))
       (trace s ++
        [ Print ("🔗 Creating tunnel for " ++ nm ++ ": localhost:"
                   ++ str_of_Z lp ++ " -> " ++ host (self s) ++ ":"
                   ++ str_of_Z rp);
          Spawn (tunnel_argv (self s) lp rp);
          Sleep 2;
          Poll (next_pid s);
          Print ("✅ " ++ nm ++ " tunnel active on port " ++ str_of_Z lp) ])
       (S (next_pid s))).
Proof.
  split; [apply create_tunnel_true_iff | ].
  create_cases E; try discriminate. reflexivity.
Qed.

Lemma create_tunnel_success_iff_witness :
  snd (create_tunnel env_ok 8080 8080 "Frontend (The Ark UI)" fresh) =
    mk_State
      (set_processes (self fresh) (processes (self fresh) ++ [next_pid fresh]))
      (trace fresh ++
       [ Print ("🔗 Creating tunnel for " ++ "Frontend (The Ark UI)"
                  ++ ": localhost:" ++ str_of_Z 8080 ++ " -> "
                  ++ host (self fresh) ++ ":" ++ str_of_Z 8080);
         Spawn (tunnel_argv (self fresh) 8080 8080);
         Sleep 2;
         Poll (next_pid fresh);
         Print ("✅ " ++ "Frontend (The Ark UI)" ++ " tunnel active on port "
                  ++ str_of_Z 8080) ])
      (S (next_pid fresh)).
Proof.
  apply (create_tunnel_success_iff env_ok 8080 8080 "Frontend (The Ark UI)"
           fresh).
  reflexivity.
Defined.

(** X3: when [Popen] itself raises (no [ssh], no resources), [create_tunnel]
    prints the error and returns [False] at once: it does not sleep, no
    process object exists and [self.processes] is untouched. *)
Theorem create_tunnel_spawn_failure E lp rp nm s e :
  env_Popen E (1 + List.length (trace s)) (tunnel_argv (self s) lp rp) = Some e ->
  isinstance_Exception e = true ->
  create_tunnel E lp rp nm s =
    (Ret false,
     mk_State
       (self s)
       (trace s ++
        [ Print ("🔗 Creating tunnel for " ++ nm ++ ": localhost:"
                   ++ str_of_Z lp ++ " -> " ++ host (self s) ++ ":"
                   ++ str_of_Z rp);
          Spawn (tunnel_argv (self s) lp rp);
          Print ("❌ Error creating tunnel for " ++ nm ++ ": " ++ exn_str e) ])
       (next_pid s)).
Proof.
  intros HP He. cbn [Nat.add] in HP.
  unfold create_tunnel, Popen, poll, communicate, processes_append.
  unfold_M. cbn. norm_trace. rewrite HP. cbn. rewrite He. cbn. norm_trace.
  reflexivity.
Qed.

Lemma create_tunnel_spawn_failure_witness :
  create_tunnel env_no_ssh 8080 8080 "Frontend (The Ark UI)" fresh =
    (Ret false,
     mk_State
       (self fresh)
       (trace fresh ++
        [ Print ("🔗 Creating tunnel for " ++ "Frontend (The Ark UI)"
                   ++ ": localhost:" ++ str_of_Z 8080 ++ " -> "
                   ++ host (self fresh) ++ ":" ++ str_of_Z 8080);
          Spawn (tunnel_argv (self fresh) 8080 8080);
          Print ("❌ Error creating tunnel for " ++ "Frontend (The Ark UI)"
                   ++ ": "
                   ++ exn_str (mk_exn OSError "[Errno 2] No such file or directory: 'ssh'")) ])
       (next_pid fresh)).
Proof.
  apply (create_tunnel_spawn_failure env_no_ssh 8080 8080
           "Frontend (The Ark UI)" fresh
           (mk_exn OSError "[Errno 2] No such file or directory: 'ssh'"));
    reflexivity.
Defined.

(** ** [monitor_tunnels] *)

(** A turn of the [for] loop never makes [self.processes] longer, however it
    ends. *)
Lemma monitor_body_no_growth E i p s :
  (List.length (processes (self (snd (monitor_body E i p s)))) <=
   List.length (processes (self s)))%nat.
Proof.
  unfold monitor_body, poll, services_key_at, services_at, processes_remove.
  unfold_M. cbn.
  destruct (env_poll E _ p) as [e|[rc|]]; cbn; try lia.
  destruct (nth_error _ i) as [lp|]; cbn; try lia.
  destruct (dict_lookup lp _) as [cfg|] eqn:Hcfg; cbn; try lia.
  destruct (list_remove p _) as [ps|] eqn:Hrm; cbn; try lia.
  rewrite Hcfg. cbn.
  apply list_remove_length in Hrm.
  match goal with
  | |- context [create_tunnel E ?a ?b ?c ?s1] =>
      pose proof (create_tunnel_processes E a b c s1) as Hc;
      destruct (create_tunnel E a b c s1) as [[ok|e|] s2]
  end; cbn in *;
    destruct Hc as [-> | ->]; rewrite ?length_app; cbn; lia.
Qed.

Lemma monitor_for_no_growth E fuel i s :
  (List.length (processes (self (snd (monitor_for E fuel i s)))) <=
   List.length (processes (self s)))%nat.
Proof.
  revert i s. induction fuel as [|fuel IH]; intros i s; cbn; [lia | ].
  unfold bind at 1. unfold get_self.
  destruct (nth_error (processes (self s)) i) as [p|]; cbn; [ | lia ].
  unfold bind. pose proof (monitor_body_no_growth E i p s) as Hb.
  destruct (monitor_body E i p s) as [[[]|e|] s1]; cbn in *; try lia.
  specialize (IH (S i) s1). lia.
Qed.

Lemma monitor_cycle_no_growth E s :
  (List.length (processes (self (snd (monitor_cycle E s)))) <=
   List.length (processes (self s)))%nat.
Proof.
  unfold monitor_cycle, try_except. unfold bind at 1. unfold get_self.
  unfold bind at 1.
  pose proof (monitor_for_no_growth E (S (List.length (processes (self s)))) 0 s)
    as Hf.
  destruct (monitor_for E _ 0 s) as [[[]|e|] s1]; cbn in *; try lia.
  destruct (isinstance_KeyboardInterrupt e); cbn; try lia.
  destruct (isinstance_Exception e); cbn; lia.
Qed.

(** X4: a monitoring cycle always comes to its end, although its loop runs
    over the list it removes from and appends to; and it never makes
    [self.processes] longer, nor changes [self.running] or the
    configuration. *)
Theorem monitor_cycle_ends_without_growth E s :
  fst (monitor_cycle E s) <> Cutoff /\
  (List.length (processes (self (snd (monitor_cycle E s)))) <=
   List.length (processes (self s)))%nat /\
  running (self (snd (monitor_cycle E s))) = running (self s) /\
  config_kept s (snd (monitor_cycle E s)).
Proof.
  split; [apply monitor_cycle_not_cutoff | ].
  split; [apply monitor_cycle_no_growth | ].
  split; [apply (preserves_monitor_cycle running_kept); exact _ | ].
  apply preserves_monitor_cycle; exact _.
Qed.

(** *** Processes that are running *)

Lemma skipn_nth_error A (l : list A) i x :
  nth_error l i = Some x -> skipn i l = x :: skipn (S i) l.
Proof.
  revert i. induction l as [|y l IH]; intros [|i]; cbn; try discriminate.
  - now intros [= ->].
  - intros H. now rewrite (IH i H).
Qed.

Lemma state_eta s : mk_State (self s) (trace s) (next_pid s) = s.
Proof. now destruct s. Qed.

(** The loop over [k] processes that are all found running: one sample for
    each, nothing else. *)
Lemma monitor_for_running E k fuel j s :
  (j + k <= List.length (processes (self s)))%nat ->
  (forall p t, In p (firstn k (skipn j (processes (self s)))) ->
               env_poll E t p = inr None) ->
  monitor_for E (k + fuel) j s =
  monitor_for E fuel (j + k)
    (mk_State (self s)
              (trace s ++ map Poll (firstn k (skipn j (processes (self s)))))
              (next_pid s)).
Proof.
  revert j s. induction k as [|k IH]; intros j s Hlen Halive.
  - cbn. now rewrite app_nil_r, Nat.add_0_r, state_eta.
  - destruct (nth_error (processes (self s)) j) as [p|] eqn:Hnth.
    2:{ apply nth_error_None in Hnth. lia. }
    rewrite (skipn_nth_error _ _ _ _ Hnth) in *.
    cbn [Nat.add monitor_for firstn map].
    unfold bind at 1. unfold get_self. rewrite Hnth.
    unfold bind at 1. unfold monitor_body, poll, call, bind.
    rewrite (Halive p (List.length (trace s)) (or_introl eq_refl)).
    unfold ret.
    set (s1 := mk_State (self s) (trace s ++ [Poll p]) (next_pid s)).
    specialize (IH (S j) s1). cbn [self trace next_pid s1] in IH.
    rewrite IH.
    + rewrite <- app_assoc. cbn [app]. now rewrite Nat.add_succ_r.
    + lia.
    + intros q t Hq. apply Halive. now right.
Qed.

Lemma monitor_for_end E fuel j s :
  (List.length (processes (self s)) <= j)%nat ->
  monitor_for E (S fuel) j s = (Ret tt, s).
Proof.
  intros H. cbn. unfold bind, get_self.
  apply nth_error_None in H. now rewrite H.
Qed.

(** X5: when every process of [self.processes] is running, a monitoring
    cycle samples each of them once, in order, sleeps ten seconds and does
    nothing else: no message, no spawn, the object as it was. *)
Theorem monitor_cycle_all_running E s :
  (forall p t, In p (processes (self s)) -> env_poll E t p = inr None) ->
  monitor_cycle E s =
    (Ret Continue,
     mk_State (self s)
              (trace s ++ map Poll (processes (self s)) ++ [Sleep 10])
              (next_pid s)).
Proof.
  intros Halive.
  unfold monitor_cycle, try_except. unfold bind at 1. unfold get_self.
  unfold bind at 1.
  replace (S (List.length (processes (self s))))
    with (List.length (processes (self s)) + 1)%nat by lia.
  rewrite (monitor_for_running E (List.length (processes (self s))) 1 0 s).
  - cbn [skipn Nat.add]. rewrite firstn_all.
    rewrite monitor_for_end by (cbn; lia).
    unfold_M. cbn. now rewrite <- app_assoc.
  - cbn. lia.
  - intros p t Hp. apply Halive. cbn [skipn] in Hp.
    now rewrite firstn_all in Hp.
Qed.

Lemma monitor_cycle_all_running_witness :
  monitor_cycle env_ok started =
    (Ret Continue,
     mk_State (self started)
              (trace started ++ map Poll (processes (self started)) ++ [Sleep 10])
              (next_pid started)).
Proof.
  apply (monitor_cycle_all_running env_ok started).
  intros p t Hp. reflexivity.
Defined.

(** *** The error path *)

Lemma dict_lookup_key d i k :
  nth_error (keys d) i = Some k -> exists c, dict_lookup k d = Some c.
Proof.
  revert i. induction d as [|[k' c'] d IH]; intros [|i]; cbn; try discriminate.
  - intros [= ->]. rewrite Z.eqb_refl. eauto.
  - intros H. destruct (k' =? k); eauto.
Qed.

Lemma list_remove_nth l i p :
  nth_error l i = Some p -> exists l', list_remove p l = Some l'.
Proof.
  revert i. induction l as [|q l IH]; intros [|i]; cbn; try discriminate.
  - intros [= ->]. rewrite Nat.eqb_refl. eauto.
  - intros H. destruct (Nat.eqb q p); eauto.
    destruct (IH i H) as [l' ->]. eauto.
Qed.

(** With no more processes than services, the handling of a process does
    not raise. *)
Lemma monitor_body_returns E i p s :
  raises_Exceptions E ->
  poll_answers E ->
  (List.length (processes (self s)) <= List.length (services (self s)))%nat ->
  nth_error (processes (self s)) i = Some p ->
  fst (monitor_body E i p s) = Ret tt.
Proof.
  intros HE HP Hlen Hnth.
  assert (Hi : (i < List.length (keys (services (self s))))%nat).
  { unfold keys. rewrite length_map.
    assert (i < List.length (processes (self s)))%nat
      by (apply nth_error_Some; congruence). lia. }
  unfold monitor_body, poll, services_key_at, services_at, processes_remove.
  unfold_M. cbn.
  destruct (HP (List.length (trace s)) p) as [st ->].
  destruct st as [rc|]; cbn; [ | reflexivity ].
  destruct (nth_error (keys (services (self s))) i) as [lp|] eqn:Hk.
  2:{ apply nth_error_None in Hk. lia. }
  cbn. destruct (dict_lookup_key _ _ _ Hk) as [cfg Hcfg]. rewrite Hcfg. cbn.
  destruct (list_remove_nth _ _ _ Hnth) as [ps ->]. cbn. rewrite Hcfg. cbn.
  match goal with
  | |- context [create_tunnel E ?a ?b ?c ?s1] =>
      destruct (create_tunnel_total E a b c s1 HE) as [ok Hok];
      destruct (create_tunnel E a b c s1) as [r s2]
  end.
  cbn in Hok. subst r. reflexivity.
Qed.

Lemma monitor_for_returns E fuel i s :
  raises_Exceptions E ->
  poll_answers E ->
  (List.length (processes (self s)) <= List.length (services (self s)))%nat ->
  (List.length (processes (self s)) - i < fuel)%nat ->
  fst (monitor_for E fuel i s) = Ret tt.
Proof.
  intros HE HP. revert i s. induction fuel as [|fuel IH]; intros i s Hlen Hf;
    [lia | ].
  cbn. unfold bind at 1. unfold get_self.
  destruct (nth_error (processes (self s)) i) as [p|] eqn:Hnth;
    [ | reflexivity ].
  assert (Hi : (i < List.length (processes (self s)))%nat)
    by (apply nth_error_Some; congruence).
  unfold bind.
  pose proof (monitor_body_returns E i p s HE HP Hlen Hnth) as Hb.
  pose proof (monitor_body_no_growth E i p s) as Hg.
  pose proof (preserves_monitor_body config_kept E i p s) as (_ & _ & _ & Hs).
  destruct (monitor_body E i p s) as [r s1]. cbn in Hb, Hg, Hs. subst r.
  apply IH; [rewrite Hs | ]; lia.
Qed.

Lemma monitor_cycle_returns E s :
  raises_Exceptions E ->
  poll_answers E ->
  (List.length (processes (self s)) <= List.length (services (self s)))%nat ->
  exists s1,
    monitor_cycle E s =
      (Ret Continue,
       mk_State (self s1) (trace s1 ++ [Sleep 10]) (next_pid s1)) /\
    trace_grows s s1 /\
    running (self s1) = running (self s) /\
    (List.length (processes (self s1)) <= List.length (services (self s1)))%nat.
Proof.
  intros HE HP Hlen.
  pose proof (monitor_for_returns E (S (List.length (processes (self s)))) 0 s
                HE HP Hlen ltac:(lia)) as Hr.
  pose proof (monitor_for_no_growth E (S (List.length (processes (self s)))) 0 s)
    as Hg.
  pose proof (preserves_monitor_for config_kept E
                (S (List.length (processes (self s)))) 0 s) as (_ & _ & _ & Hs).
  pose proof (preserves_monitor_for trace_grows E
                (S (List.length (processes (self s)))) 0 s) as Ht.
  pose proof (preserves_monitor_for running_kept E
                (S (List.length (processes (self s)))) 0 s) as Hk.
  unfold monitor_cycle, try_except. unfold bind at 1. unfold get_self.
  unfold bind at 1.
  destruct (monitor_for E _ 0 s) as [r s1]. cbn in Hr, Hg, Hs, Ht, Hk. subst r.
  exists s1. unfold_M. cbn. repeat split; auto. rewrite Hs. lia.
Qed.

(** X6: on an object that holds no more processes than services (what
    [start_tunnels] leaves on a new object), and with processes that can be
    sampled, a monitoring cycle never takes its error path: it ends with the
    ten-second sleep, and the object again holds no more processes than
    services. *)
Theorem monitor_cycle_no_error E s :
  raises_Exceptions E ->
  poll_answers E ->
  (List.length (processes (self s)) <= List.length (services (self s)))%nat ->
  fst (monitor_cycle E s) = Ret Continue /\
  (exists evs, events_since s (snd (monitor_cycle E s)) = (evs ++ [Sleep 10])%list) /\
  (List.length (processes (self (snd (monitor_cycle E s)))) <=
   List.length (services (self (snd (monitor_cycle E s)))))%nat.
Proof.
  intros HE HP Hlen.
  destruct (monitor_cycle_returns E s HE HP Hlen) as (s1 & -> & [evs Ht] & _ & Hb).
  cbn. repeat split; auto.
  exists evs. apply events_since_app. cbn. rewrite Ht. now rewrite app_assoc.
Qed.

Lemma monitor_cycle_no_error_witness :
  fst (monitor_cycle env_8434_exits (snd (start_tunnels env_8434_exits fresh)))
    = Ret Continue /\
  (exists evs,
     events_since (snd (start_tunnels env_8434_exits fresh))
       (snd (monitor_cycle env_8434_exits (snd (start_tunnels env_8434_exits fresh))))
     = (evs ++ [Sleep 10])%list) /\
  (List.length
     (processes (self (snd (monitor_cycle env_8434_exits
                              (snd (start_tunnels env_8434_exits fresh)))))) <=
   List.length
     (services (self (snd (monitor_cycle env_8434_exits
                             (snd (start_tunnels env_8434_exits fresh)))))))%nat.
Proof.
  apply (monitor_cycle_no_error env_8434_exits
           (snd (start_tunnels env_8434_exits fresh))).
  - apply raises_Exceptions_exited_from.
  - apply poll_answers_exited_from.
  - vm_compute. lia.
Defined.

(** X8: [monitor_tunnels] does not return by itself. On such an object,
    with [self.running] true, it is still in its loop after any number of
    cycles. *)
Theorem monitor_tunnels_keeps_running E s cycles :
  raises_Exceptions E ->
  poll_answers E ->
  (List.length (processes (self s)) <= List.length (services (self s)))%nat ->
  running (self s) = true ->
  fst (monitor_tunnels E cycles s) = Cutoff.
Proof.
  intros HE HP. revert s. induction cycles as [|n IH]; intros s Hlen Hrun;
    [reflexivity | ].
  cbn. unfold bind at 1. unfold get_self. rewrite Hrun. unfold bind.
  destruct (monitor_cycle_returns E s HE HP Hlen) as (s1 & -> & _ & Hk & Hb).
  apply IH; cbn; [exact Hb | congruence].
Qed.

Lemma monitor_tunnels_keeps_running_witness :
  fst (monitor_tunnels env_ok 5 started) = Cutoff.
Proof.
  apply (monitor_tunnels_keeps_running env_ok started 5).
  - exact raises_Exceptions_env_ok.
  - intros t p. eexists. reflexivity.
  - vm_compute. lia.
  - reflexivity.
Defined.

(** X9: once [stop_tunnels] has run, however it ended, [monitor_tunnels]
    returns at once: it samples nothing and starts nothing. *)
Theorem monitor_tunnels_idle_after_stop E E' s cycles :
  monitor_tunnels E' (S cycles) (snd (stop_tunnels E s)) =
    (Ret tt, snd (stop_tunnels E s)).
Proof.
  cbn [monitor_tunnels]. unfold bind at 1. unfold get_self.
  now rewrite stop_tunnels_running.
Qed.

(** *** One dead process *)

Lemma list_remove_NoDup_nth l i p :
  NoDup l -> nth_error l i = Some p ->
  list_remove p l = Some (without_nth i l).
Proof.
  intros Hnd. revert i. induction Hnd as [|q l Hq Hnd IH]; intros [|i]; cbn;
    try discriminate.
  - intros [= ->]. now rewrite Nat.eqb_refl.
  - intros Hnth. destruct (Nat.eqb q p) eqn:Hqp.
    + apply Nat.eqb_eq in Hqp. subst q. apply nth_error_In in Hnth. contradiction.
    + now rewrite (IH i Hnth).
Qed.

Lemma dict_lookup_NoDup_nth d i k c :
  NoDup (keys d) -> nth_error d i = Some (k, c) -> dict_lookup k d = Some c.
Proof.
  revert i. induction d as [|[k' c'] d IH]; intros [|i] Hnd; cbn;
    try discriminate.
  - intros [= -> ->]. now rewrite Z.eqb_refl.
  - intros Hnth. cbn in Hnd. inversion Hnd as [|? ? Hnotin Hnd']; subst.
    destruct (k' =? k) eqn:Hk.
    + apply Z.eqb_eq in Hk. subst k'. exfalso. apply Hnotin.
      apply nth_error_In in Hnth. unfold keys.
      change k with (fst (k, c)). now apply in_map.
    + now apply (IH i).
Qed.

Lemma NoDup_firstn_nth (l : list pid) i p q :
  NoDup l -> nth_error l i = Some p -> In q (firstn i l) -> q <> p.
Proof.
  intros Hnd. revert i. induction Hnd as [|x l Hx Hnd IH]; intros [|i]; cbn;
    try discriminate; try tauto.
  intros Hnth [-> | Hin].
  - intros ->. apply nth_error_In in Hnth. contradiction.
  - now apply (IH i).
Qed.

Lemma without_nth_not_in (l : list pid) i p :
  NoDup l -> nth_error l i = Some p -> ~ In p (without_nth i l).
Proof.
  intros Hnd. revert i. induction Hnd as [|x l Hx Hnd IH]; intros [|i];
    unfold without_nth; cbn; try discriminate.
  - now intros [= ->].
  - intros Hnth [-> | Hin].
    + apply nth_error_In in Hnth. contradiction.
    + now apply (IH i Hnth).
Qed.

Lemma without_nth_length (l : list pid) i p :
  nth_error l i = Some p -> S (List.length (without_nth i l)) = List.length l.
Proof.
  revert i. induction l as [|x l IH]; intros [|i]; unfold without_nth in *; cbn;
    try discriminate; auto.
Qed.

Lemma In_skipn_In A (l : list A) n x : In x (skipn n l) -> In x l.
Proof.
  revert n. induction l as [|y l IH]; intros [|n]; cbn; auto.
  intros H. right. now apply (IH n).
Qed.

Lemma In_firstn_In A (l : list A) n x : In x (firstn n l) -> In x l.
Proof.
  revert n. induction l as [|y l IH]; intros [|n]; cbn; auto; try tauto.
  intros [-> | H]; [now left | right; now apply (IH n)].
Qed.

Section OneDead.

Variables (E : Env) (dead : pid) (rc : Z).

Hypothesis Hpoll :
  forall t p, env_poll E t p = inr (if Nat.eqb p dead then Some rc else None).
Hypothesis HPopen : forall t a, env_Popen E t a = None.

(** The handling of the dead process: it is removed, its tunnel is started
    again and the new process goes to the end of the list. *)
Lemma monitor_body_respawn s i lp cfg :
  NoDup (processes (self s)) ->
  (forall p, In p (processes (self s)) -> (p < next_pid s)%nat) ->
  NoDup (keys (services (self s))) ->
  nth_error (processes (self s)) i = Some dead ->
  nth_error (services (self s)) i = Some (lp, cfg) ->
  monitor_body E i dead s =
    (Ret tt,
     mk_State
       (set_processes (self s)
          (without_nth i (processes (self s)) ++ [next_pid s]))
       (trace s ++
        [ Poll dead;
          Print ("⚠️  Tunnel for " ++ name cfg ++ " died, restarting...");
          Print ("🔗 Creating tunnel for " ++ name cfg ++ ": localhost:"
                   ++ str_of_Z lp ++ " -> " ++ host (self s) ++ ":"
                   ++ str_of_Z (remote cfg));
          Spawn (tunnel_argv (self s) lp (remote cfg));
          Sleep 2;
          Poll (next_pid s);
          Print ("✅ " ++ name cfg ++ " tunnel active on port "
                   ++ str_of_Z lp) ])
       (S (next_pid s))).
Proof.
  intros Hnd Hfresh Hdict Hnth Hsvc.
  assert (Hk : nth_error (keys (services (self s))) i = Some lp).
  { unfold keys. change lp with (fst (lp, cfg)). now apply map_nth_error. }
  assert (Hnew : Nat.eqb (next_pid s) dead = false).
  { apply Nat.eqb_neq. apply nth_error_In in Hnth. apply Hfresh in Hnth. lia. }
  unfold monitor_body, poll, services_key_at, services_at, processes_remove.
  unfold create_tunnel, Popen, poll, communicate, processes_append.
  unfold_M. cbn. norm_trace.
  rewrite Hpoll, Nat.eqb_refl. cbn. rewrite Hk. cbn.
  rewrite (dict_lookup_NoDup_nth _ _ _ _ Hdict Hsvc). cbn.
  rewrite (list_remove_NoDup_nth _ _ _ Hnd Hnth). cbn.
  rewrite (dict_lookup_NoDup_nth _ _ _ _ Hdict Hsvc). cbn. norm_trace.
  rewrite HPopen. cbn. norm_trace. rewrite Hpoll, Hnew. cbn. norm_trace.
  reflexivity.
Qed.

End OneDead.

(** X7: when one process at position [i] of [self.processes] has exited and
    every other is running, a monitoring cycle samples the processes before
    it, removes it, starts the tunnel of the service at position [i] of
    [self.services] again and puts the new process at the end of the list;
    it then goes on at position [i + 1] of the changed list, so the process
    that followed the dead one is not sampled in this cycle. *)
Theorem monitor_cycle_respawns_dead E s i dead rc lp cfg :
  (forall t p,
     env_poll E t p = inr (if Nat.eqb p dead then Some rc else None)) ->
  (forall t a, env_Popen E t a = None) ->
  NoDup (processes (self s)) ->
  (forall p, In p (processes (self s)) -> (p < next_pid s)%nat) ->
  NoDup (keys (services (self s))) ->
  nth_error (processes (self s)) i = Some dead ->
  nth_error (services (self s)) i = Some (lp, cfg) ->
  monitor_cycle E s =
    (Ret Continue,
     mk_State
       (set_processes (self s)
          (without_nth i (processes (self s)) ++ [next_pid s]))
       (trace s ++
        map Poll (firstn i (processes (self s))) ++
        [ Poll dead;
          Print ("⚠️  Tunnel for " ++ name cfg ++ " died, restarting...");
          Print ("🔗 Creating tunnel for " ++ name cfg ++ ": localhost:"
                   ++ str_of_Z lp ++ " -> " ++ host (self s) ++ ":"
                   ++ str_of_Z (remote cfg));
          Spawn (tunnel_argv (self s) lp (remote cfg));
          Sleep 2;
          Poll (next_pid s);
          Print ("✅ " ++ name cfg ++ " tunnel active on port "
                   ++ str_of_Z lp) ] ++
        map Poll
          (skipn (S i) (without_nth i (processes (self s)) ++ [next_pid s])) ++
        [Sleep 10])
       (S (next_pid s))).
Proof.
  intros Hpoll HPopen Hnd Hfresh Hdict Hnth Hsvc.
  assert (Hi : (i < List.length (processes (self s)))%nat)
    by (apply nth_error_Some; congruence).
  pose proof (without_nth_length _ _ _ Hnth) as Hwl.
  assert (Halive : forall p t, p <> dead -> env_poll E t p = inr None).
  { intros p t Hp. rewrite Hpoll. apply Nat.eqb_neq in Hp. now rewrite Hp. }
  unfold monitor_cycle, try_except. unfold bind at 1. unfold get_self.
  unfold bind at 1.
  replace (S (List.length (processes (self s))))
    with (i + S (List.length (processes (self s)) - i))%nat by lia.
  rewrite (monitor_for_running E i _ 0 s).
  2:{ cbn. lia. }
  2:{ intros p t Hp. apply Halive. cbn [skipn] in Hp.
      eapply NoDup_firstn_nth; eauto. }
  cbn [skipn Nat.add].
  replace (S (List.length (processes (self s)) - i))
    with (S (List.length (processes (self s)) - S i + 1))%nat by lia.
  cbn [monitor_for]. unfold bind at 1. unfold get_self. cbn [self].
  rewrite Hnth. unfold bind at 1.
  rewrite (monitor_body_respawn E dead rc Hpoll HPopen _ i lp cfg);
    cbn [self trace next_pid]; auto.
  set (new := (without_nth i (processes (self s)) ++ [next_pid s])%list).
  assert (Hnl : List.length new = List.length (processes (self s))).
  { subst new. rewrite length_app. cbn. lia. }
  match goal with
  | |- context [monitor_for E _ (S i) ?s2] =>
      rewrite (monitor_for_running E
                 (List.length (processes (self s)) - S i) 1 (S i) s2)
  end.
  - cbn [self trace next_pid processes set_processes].
    rewrite monitor_for_end
      by (cbn [self processes set_processes]; fold new; lia).
    fold new.
    rewrite (firstn_all2 (skipn (S i) new)
               (n := List.length (processes (self s)) - S i))
      by (rewrite length_skipn; lia).
    unfold_M. cbn [self trace next_pid fst snd].
    repeat rewrite <- app_assoc. cbn [app]. reflexivity.
  - cbn [self processes set_processes]. fold new. lia.
  - intros p t Hp. apply Halive.
    cbn [self processes set_processes] in Hp. fold new in Hp.
    apply In_firstn_In in Hp. apply In_skipn_In in Hp. subst new.
    apply in_app_or in Hp. destruct Hp as [Hp | [<- | []]].
    + intros ->. eapply without_nth_not_in; eauto.
    + apply nth_error_In in Hnth. apply Hfresh in Hnth. lia.
Qed.

Lemma NoDup_started : NoDup (processes (self started)).
Proof.
  change (processes (self started)) with [0%nat; 1%nat; 2%nat].
  repeat constructor; cbn; intuition discriminate.
Qed.

Lemma monitor_cycle_respawns_dead_witness :
  monitor_cycle (env_one_dead 1%nat) started =
    (Ret Continue,
     mk_State
       (set_processes (self started)
          (without_nth 1 (processes (self started)) ++ [next_pid started]))
       (trace started ++
        map Poll (firstn 1 (processes (self started))) ++
        [ Poll 1%nat;
          Print ("⚠️  Tunnel for " ++ "Backend API" ++ " died, restarting...");
          Print ("🔗 Creating tunnel for " ++ "Backend API" ++ ": localhost:"
                   ++ str_of_Z 8001 ++ " -> " ++ host (self started) ++ ":"
                   ++ str_of_Z 8001);
          Spawn (tunnel_argv (self started) 8001 8001);
          Sleep 2;
          Poll (next_pid started);
          Print ("✅ " ++ "Backend API" ++ " tunnel active on port "
                   ++ str_of_Z 8001) ] ++
        map Poll
          (skipn 2 (without_nth 1 (processes (self started)) ++ [next_pid started])) ++
        [Sleep 10])
       (S (next_pid started))).
Proof.
  apply (monitor_cycle_respawns_dead (env_one_dead 1%nat) started 1%nat 1%nat 255
           8001 (mk_service 8001 "Backend API" "http://localhost:8001")).
  - intros t p. reflexivity.
  - intros t a. reflexivity.
  - exact NoDup_started.
  - change (processes (self started)) with [0%nat; 1%nat; 2%nat].
    change (next_pid started) with 3%nat.
    cbn. intros p [<- | [<- | [<- | []]]]; lia.
  - change (keys (services (self started))) with [8080; 8001; 8434].
    repeat constructor; cbn; intuition discriminate.
  - reflexivity.
  - reflexivity.
Defined.

(** ** [start_tunnels], further *)

Lemma any_alive_self E ps s : self (snd (any_alive E ps s)) = self s.
Proof.
  revert s. induction ps as [|p rest IH]; intros s; cbn; [reflexivity | ].
  unfold poll, call, bind.
  destruct (env_poll E _ p) as [e|[rc|]]; cbn; auto. now rewrite IH.
Qed.

Lemma announce_self E items s : self (snd (announce E items s)) = self s.
Proof.
  revert s. induction items as [|[lp cfg] rest IH]; intros s; cbn;
    [reflexivity | ].
  unfold bind at 1. unfold get_self. unfold bind at 1.
  pose proof (any_alive_self E (processes (self s)) s) as Ha.
  destruct (any_alive E (processes (self s)) s) as [[b|e|] s1]; cbn in *; auto.
  destruct b; unfold bind, print, emit, ret; rewrite IH; cbn; auto.
Qed.

Lemma start_tunnels_report_self E n s :
  self (snd (start_tunnels_report E n s)) = self s.
Proof.
  unfold start_tunnels_report. destruct (n >? 0); [ | reflexivity ].
  unfold_M. cbn.
  match goal with
  | |- context [announce E ?items ?s1] =>
      pose proof (announce_self E items s1) as Ha;
      destruct (announce E items s1) as [[[]|e|] s2]
  end; cbn in *; auto.
Qed.

Lemma spawn_each_bound E items n s :
  (List.length (processes (self (snd (spawn_each E items n s)))) <=
   List.length (processes (self s)) + List.length items)%nat.
Proof.
  revert n s. induction items as [|[lp cfg] rest IH]; intros n s; cbn; [lia | ].
  unfold bind.
  pose proof (create_tunnel_processes E lp (remote cfg) (name cfg) s) as Hc.
  destruct (create_tunnel E lp (remote cfg) (name cfg) s) as [[ok|e|] s1];
    cbn in *.
  - specialize (IH (if ok then n + 1 else n) s1).
    destruct Hc as [Hc | Hc]; rewrite Hc in IH; rewrite ?length_app in IH;
      cbn in IH; lia.
  - destruct Hc as [-> | ->]; rewrite ?length_app; cbn; lia.
  - destruct Hc as [-> | ->]; rewrite ?length_app; cbn; lia.
Qed.

Lemma start_tunnels_bound E s :
  (List.length (processes (self (snd (start_tunnels E s)))) <=
   List.length (processes (self s)) + List.length (services (self s)))%nat /\
  services (self (snd (start_tunnels E s))) = services (self s).
Proof.
  unfold start_tunnels, check_ssh_key, subprocess_run. unfold_M. cbn.
  destruct (env_run E _ _ _) as [e|rc]; cbn.
  - destruct (isinstance_Exception e); cbn; split; auto; lia.
  - destruct (rc =? 0); cbn; [ | split; auto; lia ].
    unfold start_tunnels_spawn. unfold_M. cbn.
    match goal with
    | |- context [spawn_each E ?items ?n ?s1] =>
        pose proof (spawn_each_bound E items n s1) as Hb;
        pose proof (preserves_spawn_each config_kept E items n s1)
          as (_ & _ & _ & Hs);
        destruct (spawn_each E items n s1) as [[c|e|] s2]
    end; cbn in *; try (split; [lia | exact Hs]).
    rewrite start_tunnels_report_self. split; [lia | exact Hs].
Qed.

(** X10: whatever happens, [start_tunnels] adds at most one process for each
    service to [self.processes]; called once on a new object, it leaves no
    more processes than services. *)
Theorem start_tunnels_registry_bound E s :
  (List.length (processes (self (snd (start_tunnels E s)))) <=
   List.length (processes (self s)) + List.length (services (self s)))%nat.
Proof.
  unfold start_tunnels, check_ssh_key, subprocess_run. unfold_M. cbn.
  destruct (env_run E _ _ _) as [e|rc]; cbn.
  - destruct (isinstance_Exception e); cbn; lia.
  - destruct (rc =? 0); cbn; [ | lia ].
    unfold start_tunnels_spawn. unfold_M. cbn.
    match goal with
    | |- context [spawn_each E ?items ?n ?s1] =>
        pose proof (spawn_each_bound E items n s1) as Hb;
        destruct (spawn_each E items n s1) as [[c|e|] s2]
    end; cbn in *; try lia.
    rewrite start_tunnels_report_self. lia.
Qed.

Section AllSucceed.

Variable E : Env.

Hypothesis HPopen : forall t a, env_Popen E t a = None.
Hypothesis Hpoll : forall t p, env_poll E t p = inr None.

Lemma create_tunnel_succeeds lp rp nm s :
  fst (create_tunnel E lp rp nm s) = Ret true /\
  processes (self (snd (create_tunnel E lp rp nm s))) =
    (processes (self s) ++ [next_pid s])%list /\
  next_pid (snd (create_tunnel E lp rp nm s)) = S (next_pid s).
Proof.
  unfold create_tunnel, Popen, poll, communicate, processes_append.
  unfold_M. cbn. rewrite HPopen. cbn. rewrite Hpoll. cbn. auto.
Qed.

Lemma spawn_each_succeeds items n s :
  fst (spawn_each E items n s) = Ret (n + Z.of_nat (List.length items)) /\
  processes (self (snd (spawn_each E items n s))) =
    (processes (self s) ++ seq (next_pid s) (List.length items))%list.
Proof.
  revert n s. induction items as [|[lp cfg] rest IH]; intros n s.
  - cbn. rewrite Z.add_0_r, app_nil_r. auto.
  - cbn [spawn_each List.length seq]. unfold bind.
    destruct (create_tunnel_succeeds lp (remote cfg) (name cfg) s)
      as (Hr & Hp & Hn).
    destruct (create_tunnel E lp (remote cfg) (name cfg) s) as [r s1].
    cbn in Hr, Hp, Hn. subst r.
    destruct (IH (n + 1) s1) as (IHr & IHp). rewrite IHr, IHp, Hp, Hn.
    rewrite <- app_assoc. cbn [app]. split; [ | reflexivity ].
    f_equal. lia.
Qed.

End AllSucceed.

(** X11: with the connection verified, every spawn working and every process
    found running, [start_tunnels] returns [True] (for at least one
    service), [self.running] is [True], and [self.processes] has gained one
    new process for each service, in the order of [self.services]. *)
Theorem start_tunnels_all_succeed E s :
  precheck_ok E (4 + List.length (trace s)) (self s) ->
  (forall t a, env_Popen E t a = None) ->
  (forall t p, env_poll E t p = inr None) ->
  fst (start_tunnels E s) =
    Ret (Z.of_nat (List.length (services (self s))) >? 0) /\
  processes (self (snd (start_tunnels E s))) =
    (processes (self s) ++
     seq (next_pid s) (List.length (services (self s))))%list /\
  running (self (snd (start_tunnels E s))) = true.
Proof.
  intros Hok HPopen Hpoll.
  rewrite (start_tunnels_after_precheck E s Hok). unfold bind.
  destruct (spawn_each_succeeds E HPopen Hpoll (services (self s)) 0
              (after_precheck s)) as (Hr & Hp).
  pose proof (preserves_spawn_each running_kept E (services (self s)) 0
                (after_precheck s)) as Hk.
  unfold running_kept in Hk.
  destruct (spawn_each E (services (self s)) 0 (after_precheck s)) as [r s1].
  cbn in Hr, Hp, Hk. subst r.
  assert (HP : poll_answers E) by (intros t p; rewrite Hpoll; eauto).
  split; [ | split ].
  - now rewrite start_tunnels_report_total.
  - now rewrite start_tunnels_report_self.
  - now rewrite start_tunnels_report_self.
Qed.

Lemma start_tunnels_all_succeed_witness :
  fst (start_tunnels env_ok fresh) =
    Ret (Z.of_nat (List.length (services (self fresh))) >? 0) /\
  processes (self (snd (start_tunnels env_ok fresh))) =
    (processes (self fresh) ++
     seq (next_pid fresh) (List.length (services (self fresh))))%list /\
  running (self (snd (start_tunnels env_ok fresh))) = true.
Proof.
  apply (start_tunnels_all_succeed env_ok fresh).
  - reflexivity.
  - intros t a. reflexivity.
  - intros t p. reflexivity.
Defined.

(** X12: on an object with an empty registry, after [start_tunnels] (however
    it went), no monitoring cycle takes the error path of [monitor_tunnels],
    as long as the processes can be sampled: the first cycle and every
    cycle after it returns through the ten-second sleep. *)
Theorem monitor_cycles_after_start_no_error E s n :
  raises_Exceptions E ->
  poll_answers E ->
  processes (self s) = [] ->
  fst (monitor_cycle E
         (Nat.iter n (fun s' => snd (monitor_cycle E s'))
            (snd (start_tunnels E s)))) = Ret Continue /\
  exists evs,
    events_since
      (Nat.iter n (fun s' => snd (monitor_cycle E s')) (snd (start_tunnels E s)))
      (snd (monitor_cycle E
              (Nat.iter n (fun s' => snd (monitor_cycle E s'))
                 (snd (start_tunnels E s))))) =
    (evs ++ [Sleep 10])%list.
Proof.
  intros HE HP Hempty.
  assert (Hinv : (List.length
                    (processes (self (Nat.iter n (fun s' => snd (monitor_cycle E s'))
                                        (snd (start_tunnels E s))))) <=
                  List.length
                    (services (self (Nat.iter n (fun s' => snd (monitor_cycle E s'))
                                       (snd (start_tunnels E s))))))%nat).
  { unfold Nat.iter. induction n as [|n IH]; cbn [nat_rect].
    - destruct (start_tunnels_bound E s) as (Hb & Hs). rewrite Hs.
      rewrite Hempty in Hb. exact Hb.
    - destruct (monitor_cycle_returns E _ HE HP IH) as (s1 & -> & _ & _ & Hb).
      exact Hb. }
  destruct (monitor_cycle_returns E _ HE HP Hinv) as (s1 & -> & [evs Ht] & _ & _).
  split; [reflexivity | ].
  exists evs. apply events_since_app. cbn. rewrite Ht. now rewrite app_assoc.
Qed.

Lemma monitor_cycles_after_start_no_error_witness :
  fst (monitor_cycle env_8434_exits
         (Nat.iter 3 (fun s' => snd (monitor_cycle env_8434_exits s'))
            (snd (start_tunnels env_8434_exits fresh)))) = Ret Continue /\
  exists evs,
    events_since
      (Nat.iter 3 (fun s' => snd (monitor_cycle env_8434_exits s'))
         (snd (start_tunnels env_8434_exits fresh)))
      (snd (monitor_cycle env_8434_exits
              (Nat.iter 3 (fun s' => snd (monitor_cycle env_8434_exits s'))
                 (snd (start_tunnels env_8434_exits fresh))))) =
    (evs ++ [Sleep 10])%list.
Proof.
  apply (monitor_cycles_after_start_no_error env_8434_exits fresh 3).
  - apply raises_Exceptions_exited_from.
  - apply poll_answers_exited_from.
  - reflexivity.
Defined.

(** ** [stop_tunnels], further *)

Lemma terminated_app tr1 tr2 :
  terminated (tr1 ++ tr2) = (terminated tr1 ++ terminated tr2)%list.
Proof.
  induction tr1 as [|ev tr1 IH]; cbn; [reflexivity|].
  destruct ev; cbn; now rewrite IH.
Qed.

(** However the terminate and the wait end, the loop goes on to the next
    process, as long as no kill raises. *)
Lemma stop_process_survives E p s :
  raises_Exceptions E ->
  (forall t q, env_kill E t q = None) ->
  fst (stop_process E p s) = Ret tt /\
  self (snd (stop_process E p s)) = self s /\
  terminated (trace (snd (stop_process E p s))) =
    (terminated (trace s) ++ [p])%list.
Proof.
  intros HE Hkill.
  unfold stop_process, terminate, wait, kill. unfold_M. cbn. norm_trace.
  destruct (env_terminate E _ p) as [e|] eqn:Ht; cbn; norm_trace.
  - destruct (isinstance_TimeoutExpired e); cbn; norm_trace.
    + rewrite Hkill. cbn. norm_trace. rewrite terminated_app. auto.
    + rewrite (re_terminate E HE _ _ _ Ht). cbn. norm_trace.
      rewrite terminated_app. auto.
  - destruct (env_wait E _ p 5) as [e|rc] eqn:Hw; cbn; norm_trace.
    + destruct (isinstance_TimeoutExpired e); cbn; norm_trace.
      * rewrite Hkill. cbn. norm_trace. rewrite terminated_app. auto.
      * rewrite (re_wait E HE _ _ _ _ Hw). cbn. norm_trace.
        rewrite terminated_app. auto.
    + rewrite terminated_app. auto.
Qed.

Lemma stop_each_survives E ps s :
  raises_Exceptions E ->
  (forall t q, env_kill E t q = None) ->
  fst (stop_each E ps s) = Ret tt /\
  self (snd (stop_each E ps s)) = self s /\
  terminated (trace (snd (stop_each E ps s))) =
    (terminated (trace s) ++ ps)%list.
Proof.
  intros HE Hkill. revert s. induction ps as [|p rest IH]; intros s; cbn.
  - rewrite app_nil_r. auto.
  - unfold bind. destruct (stop_process_survives E p s HE Hkill) as (Hr & Hs & Ht).
    destruct (stop_process E p s) as [r s1]. cbn in Hr, Hs, Ht. subst r.
    destruct (IH s1) as (IHr & IHs & IHt).
    rewrite IHr, IHs, IHt, Hs, Ht, <- app_assoc. auto.
Qed.

(** X13: a terminate or a wait that fails does not stop the teardown. As
    long as no kill raises, [stop_tunnels] returns, having sent a terminate
    to every process of [self.processes], in order, and leaves
    [self.processes] empty and [self.running] false. *)
Theorem stop_tunnels_survives_failures E s :
  raises_Exceptions E ->
  (forall t p, env_kill E t p = None) ->
  fst (stop_tunnels E s) = Ret tt /\
  terminated (events_since s (snd (stop_tunnels E s))) = processes (self s) /\
  processes (self (snd (stop_tunnels E s))) = [] /\
  running (self (snd (stop_tunnels E s))) = false.
Proof.
  intros HE Hkill.
  pose proof (stop_tunnels_running E s) as Hrun.
  unfold stop_tunnels in *. unfold_M. cbn in *.
  match goal with
  | |- context [stop_each E ?ps ?s1] =>
      destruct (stop_each_survives E ps s1 HE Hkill) as (Hr & Hs & Ht);
      pose proof (preserves_stop_each trace_grows E ps s1) as [evs Hg];
      destruct (stop_each E ps s1) as [r s2]
  end.
  cbn in Hr, Hs, Ht, Hg, Hrun |- *. subst r. cbn in *.
  repeat split; auto.
  rewrite Hg in Ht. rewrite !terminated_app in Ht. cbn in Ht.
  rewrite app_nil_r in Ht. apply app_inv_head in Ht.
  erewrite events_since_app.
  2:{ rewrite Hg, <- !app_assoc. reflexivity. }
  rewrite !terminated_app. cbn. rewrite app_nil_r. exact Ht.
Qed.

Lemma raises_Exceptions_env_stop_failures : raises_Exceptions env_stop_failures.
Proof. solve_raises. Qed.

Lemma stop_tunnels_survives_failures_witness :
  fst (stop_tunnels env_stop_failures started) = Ret tt /\
  terminated (events_since started (snd (stop_tunnels env_stop_failures started)))
    = processes (self started) /\
  processes (self (snd (stop_tunnels env_stop_failures started))) = [] /\
  running (self (snd (stop_tunnels env_stop_failures started))) = false.
Proof.
  apply (stop_tunnels_survives_failures env_stop_failures started).
  - exact raises_Exceptions_env_stop_failures.
  - intros t p. reflexivity.
Defined.

(** X14: the kill is not protected. When the first process does not exit
    within the five seconds and its kill raises, the exception leaves
    [stop_tunnels]: the other processes get no terminate and
    [self.processes] is not cleared; [self.running] is false already. *)
Theorem stop_tunnels_kill_failure E s p rest te e :
  processes (self s) = p :: rest ->
  env_terminate E (1 + List.length (trace s)) p = None ->
  env_wait E (2 + List.length (trace s)) p 5 = inl te ->
  isinstance_TimeoutExpired te = true ->
  env_kill E (3 + List.length (trace s)) p = Some e ->
  stop_tunnels E s =
    (Raise e,
     mk_State (set_running (self s) false)
              (trace s ++
               [ Print (nl ++ "🛑 Stopping tunnels...");
                 Terminate p; Wait p 5; Kill p ])
              (next_pid s)).
Proof.
  intros Hps Ht Hw Hte Hk. cbn [Nat.add] in *.
  unfold stop_tunnels. unfold_M. cbn. rewrite Hps. cbn [stop_each].
  unfold bind at 1. unfold stop_process, terminate, wait, kill. unfold_M.
  cbn. norm_trace. rewrite Ht. cbn. norm_trace. rewrite Hw. cbn.
  rewrite Hte. cbn. norm_trace. rewrite Hk. cbn. norm_trace. reflexivity.
Qed.

Lemma stop_tunnels_kill_failure_witness :
  stop_tunnels env_kill_refused started =
    (Raise (mk_exn OSError "[Errno 1] Operation not permitted"),
     mk_State (set_running (self started) false)
              (trace started ++
               [ Print (nl ++ "🛑 Stopping tunnels...");
                 Terminate 0%nat; Wait 0%nat 5; Kill 0%nat ])
              (next_pid started)).
Proof.
  apply (stop_tunnels_kill_failure env_kill_refused started 0%nat
           [1%nat; 2%nat]
           (mk_exn TimeoutExpired "timed out after 5 seconds")
           (mk_exn OSError "[Errno 1] Operation not permitted"));
    reflexivity.
Defined.

(** ** [signal_handler] *)

(** X15: [signal_handler] stops the tunnels and then leaves through
    [SystemExit], which no [except Exception] clause of the program holds
    back; [self.processes] is empty and [self.running] false by then. *)
Theorem signal_handler_exits E s :
  signals_delivered E ->
  fst (signal_handler E s) = Raise (mk_exn SystemExit "0") /\
  isinstance_Exception (mk_exn SystemExit "0") = false /\
  processes (self (snd (signal_handler E s))) = [] /\
  running (self (snd (signal_handler E s))) = false /\
  events_since s (snd (signal_handler E s)) =
    Print (nl ++ "🛑 Received interrupt signal...") ::
    Print (nl ++ "🛑 Stopping tunnels...") ::
    stop_events E (2 + List.length (trace s)) (processes (self s)) ++
    [Print "✅ All tunnels stopped"].
Proof.
  intros HE. unfold signal_handler, stop_tunnels. unfold_M. cbn.
  rewrite (stop_each_delivered _ _ _ HE). cbn. norm_trace.
  repeat split. apply events_since_app. reflexivity.
Qed.

Lemma signal_handler_exits_witness :
  fst (signal_handler env_slow_exit started) = Raise (mk_exn SystemExit "0") /\
  isinstance_Exception (mk_exn SystemExit "0") = false /\
  processes (self (snd (signal_handler env_slow_exit started))) = [] /\
  running (self (snd (signal_handler env_slow_exit started))) = false /\
  events_since started (snd (signal_handler env_slow_exit started)) =
    Print (nl ++ "🛑 Received interrupt signal...") ::
    Print (nl ++ "🛑 Stopping tunnels...") ::
    stop_events env_slow_exit (2 + List.length (trace started))
      (processes (self started)) ++
    [Print "✅ All tunnels stopped"].
Proof.
  apply (signal_handler_exits env_slow_exit started).
  exact signals_delivered_env_slow_exit.
Defined.

(** ** [test_services], further *)

(** X16: the OK line is printed before the body is read. When a service on
    port 8434 or 8001 answers 200 with a body that cannot be read or is no
    JSON, [test_service] prints the OK line and then the failure line for the
    same service. *)
Theorem test_service_ok_then_failed E s lp cfg resp body e :
  lp = 8434 \/ lp = 8001 ->
  env_urlopen E (List.length (trace s)) (probe_url lp) 5 = inr resp ->
  getcode resp = 200 ->
  read resp = inr body ->
  env_json_loads E body = inl e ->
  isinstance_Exception e = true ->
  test_service E lp cfg s =
    (Ret tt,
     mk_State (self s)
              (trace s ++
               [ UrlOpen (probe_url lp) 5;
                 Print ("✅ " ++ name cfg ++ ": OK");
                 Read (probe_url lp);
                 Print ("❌ " ++ name cfg ++ ": " ++ exn_str e) ])
              (next_pid s)).
Proof.
  intros Hlp Hu Hc Hr Hj He. apply Z.eqb_eq in Hc.
  unfold test_service, urlopen, response_read. unfold_M. cbn. norm_trace.
  rewrite Hu. cbn. rewrite Hc. cbn.
  destruct Hlp as [Hlp | Hlp].
  - assert (H1 : (lp =? 8434) = true) by (subst lp; reflexivity).
    rewrite H1. cbn. rewrite Hr. cbn. rewrite Hj. cbn. rewrite He. cbn.
    norm_trace. reflexivity.
  - assert (H1 : (lp =? 8434) = false) by (subst lp; reflexivity).
    assert (H2 : (lp =? 8001) = true) by (subst lp; reflexivity).
    rewrite H1, H2. cbn. rewrite Hr. cbn. rewrite Hj. cbn. rewrite He. cbn.
    norm_trace. reflexivity.
Qed.

Lemma test_service_ok_then_failed_witness :
  test_service env_html_body 8001
    (mk_service 8001 "Backend API" "http://localhost:8001") fresh =
    (Ret tt,
     mk_State (self fresh)
              (trace fresh ++
               [ UrlOpen (probe_url 8001) 5;
                 Print ("✅ " ++ name (mk_service 8001 "Backend API" "http://localhost:8001")
                          ++ ": OK");
                 Read (probe_url 8001);
                 Print ("❌ " ++ name (mk_service 8001 "Backend API" "http://localhost:8001")
                          ++ ": "
                          ++ exn_str (mk_exn JSONDecodeError
                                        "Expecting value: line 1 column 1 (char 0)")) ])
              (next_pid fresh)).
Proof.
  apply (test_service_ok_then_failed env_html_body fresh 8001
           (mk_service 8001 "Backend API" "http://localhost:8001")
           (mk_response 200 (inr "{}")) "{}"
           (mk_exn JSONDecodeError "Expecting value: line 1 column 1 (char 0)"));
    try reflexivity.
  right. reflexivity.
Defined.

(** X17: a JSON object without the expected key is not an error. Without
    [models], port 8434 is reported with 0 models; without [database], port
    8001 is reported with the database [unknown]. *)
Theorem test_service_missing_key E s lp cfg resp body kv :
  env_urlopen E (List.length (trace s)) (probe_url lp) 5 = inr resp ->
  getcode resp = 200 ->
  read resp = inr body ->
  env_json_loads E body = inr (JDict kv) ->
  (lp = 8434 -> assoc_str "models" kv = None ->
   events_since s (snd (test_service E lp cfg s)) =
     [ UrlOpen (probe_url lp) 5;
       Print ("✅ " ++ name cfg ++ ": OK");
       Read (probe_url lp);
       Print "   🤖 0 AI models loaded" ]) /\
  (lp = 8001 -> assoc_str "database" kv = None ->
   events_since s (snd (test_service E lp cfg s)) =
     [ UrlOpen (probe_url lp) 5;
       Print ("✅ " ++ name cfg ++ ": OK");
       Read (probe_url lp);
       Print "   💾 Database: unknown" ]).
Proof.
  intros Hu Hc Hr Hj. apply Z.eqb_eq in Hc. split; intros Hlp Hk.
  - assert (H1 : (lp =? 8434) = true) by (subst lp; reflexivity).
    unfold test_service, urlopen, response_read. unfold_M. cbn. norm_trace.
    rewrite Hu. cbn. rewrite Hc, H1. cbn. rewrite Hr. cbn. rewrite Hj. cbn.
    rewrite Hk. cbn. norm_trace. apply events_since_app. reflexivity.
  - assert (H1 : (lp =? 8434) = false) by (subst lp; reflexivity).
    assert (H2 : (lp =? 8001) = true) by (subst lp; reflexivity).
    unfold test_service, urlopen, response_read. unfold_M. cbn. norm_trace.
    rewrite Hu. cbn. rewrite Hc, H1, H2. cbn. rewrite Hr. cbn. rewrite Hj. cbn.
    rewrite Hk. cbn. norm_trace. apply events_since_app. reflexivity.
Qed.

Lemma test_service_missing_key_witness :
  events_since fresh
    (snd (test_service env_ok 8434
            (mk_service 8434 "Ollama AI API" "http://localhost:8434/api/tags")
            fresh)) =
    [ UrlOpen (probe_url 8434) 5;
      Print ("✅ " ++ name (mk_service 8434 "Ollama AI API" "http://localhost:8434/api/tags")
               ++ ": OK");
      Read (probe_url 8434);
      Print "   🤖 0 AI models loaded" ].
Proof.
  exact (proj1 (test_service_missing_key env_ok fresh 8434
                  (mk_service 8434 "Ollama AI API" "http://localhost:8434/api/tags")
                  (mk_response 200 (inr "{}")) "{}" []
                  eq_refl eq_refl eq_refl eq_refl)
           eq_refl eq_refl).
Defined.
